(** * Procurement dashboard: the numeric layer of [scripts/viz.py] and the
      tables of [scripts/data_gen.py]

    The development embeds the pure part of the two scripts: the currency
    formatters, the back-calculation of a previous-period value, the donut
    remainder, the axis derivations of the stacked bar and of the ROI chart,
    the forecast join, and the generator's tables.

    Conventions of the embedding.
    - A Python number (an [int], a [float], a NumPy scalar read from the data
      files) is an exact rational [Q]; a number that the code converts with
      [int(...)] or builds with [range] is a [Z].  Rounding of binary
      floating point is outside this model; the module [Binary64] evaluates
      the same computations in IEEE double precision at given inputs.
    - A call that can raise returns a [result]; [Raise e] is the exception
      the interpreter or the library raises at that point.
    - A data frame is the list of its rows, a series the list of its values,
      in file order.  The savings column of the monthly frame is the int64
      column the generator writes: its sums wrap around.
    - A string is the UTF-8 encoding of the Python text.
    - Chart styling (colours, fonts, margins, legends) is not modelled: a
      figure is the record of the data handed to the charting library. *)

From Stdlib Require Import ZArith QArith Qround Qabs Qminmax.
From Stdlib Require Import Bool List String Ascii DecimalString Lia.
From Stdlib Require Import SpecFloat Lqa.
Import ListNotations.

Set Implicit Arguments.

(** ** Exceptions *)

Inductive exn : Type :=
| ZeroDivisionError
| ValueError
| IndexError
| KeyError.

Inductive result (A : Type) : Type :=
| Ok (a : A)
| Raise (e : exn).

Arguments Ok {A} a.
Arguments Raise {A} e.

Definition bind {A B : Type} (r : result A) (k : A -> result B) : result B :=
  match r with
  | Ok a => k a
  | Raise e => Raise e
  end.

Notation "x <- r ;; k" := (bind r (fun x => k))
  (at level 61, r at next level, right associativity).

(** ** Python primitives the scripts rely on *)

Module Py.

Open Scope Q_scope.

(** Truth value of a number: [if denom] is false exactly for zero. *)
Definition truthy (x : Q) : bool := negb (Qeq_bool x 0).

(** [x / y] on numbers: raises on a zero divisor. *)
Definition truediv (x y : Q) : result Q :=
  if Qeq_bool y 0 then Raise ZeroDivisionError else Ok (x / y).

(** [x < y]. *)
Definition lt (x y : Q) : bool := negb (Qle_bool y x).

(** [max(a, b)]: the first argument is kept unless the second is
    strictly greater. *)
Definition max2 (a b : Q) : Q := if lt a b then b else a.

(** [int(x)]: truncation toward zero. *)
Definition int (x : Q) : Z := Z.quot (Qnum x) (Zpos (Qden x)).

(** [np.ceil(x)]: the least integer that is not below [x]; an integral
    value, kept as a [Z]. *)
Definition ceil (x : Q) : Z := Qceiling x.

(** [range(start, stop, step)] for a positive step: [start], [start+step],
    ... while below [stop]. *)
Definition range (start stop step : Z) : list Z :=
  map (fun k => (start + Z.of_nat k * step)%Z)
      (seq 0 (Z.to_nat ((stop - start + step - 1) / step))).

(** [xs[-1]]. *)
Definition last {A : Type} (xs : list A) : result A :=
  match rev xs with
  | [] => Raise IndexError
  | x :: _ => Ok x
  end.

(** Decimal digits of a natural number, most significant first. *)
Definition digits (n : N) : list ascii :=
  list_ascii_of_string (NilZero.string_of_uint (N.to_uint n)).

(** The grouping of the [","] format option, on the digits in reverse
    order: a separator after every third digit that has a digit after
    it. *)
Fixpoint group3 (rev_digits : list ascii) : list ascii :=
  match rev_digits with
  | a :: b :: c :: ((_ :: _) as rest) =>
      a :: b :: c :: ","%char :: group3 rest
  | _ => rev_digits
  end.

(** [format(n, ",")] for an integer [n]. *)
Definition format_comma (n : Z) : string :=
  ((if (n <? 0)%Z then "-" else "") ++
   string_of_list_ascii (rev (group3 (rev (digits (Z.abs_N n))))))%string.

(** Two's complement wrap-around of a 64-bit signed integer. *)
Definition wrap64 (z : Z) : Z := ((z + 2 ^ 63) mod 2 ^ 64 - 2 ^ 63)%Z.

(** The number of bytes of the whitespace character that starts [s], and 0
    when none starts there.  A string is the UTF-8 encoding of the Python
    text; the whitespace characters are those of [str.isspace]: U+0009 to
    U+000D, U+001C to U+0020, U+0085, U+00A0, U+1680, U+2000 to U+200A,
    U+2028, U+2029, U+202F, U+205F and U+3000. *)
Definition space_width (s : list ascii) : nat :=
  match map N_of_ascii s with
  | [] => 0
  | b :: rest =>
      if (((9 <=? b) && (b <=? 13)) || ((28 <=? b) && (b <=? 32)))%N then 1
      else
        match rest with
        | [] => 0
        | c :: rest' =>
            if ((b =? 194) && ((c =? 133) || (c =? 160)))%N then 2
            else
              match rest' with
              | [] => 0
              | d :: _ =>
                  if ((b =? 225) && (c =? 154) && (d =? 128))%N then 3
                  else if ((b =? 226) && (c =? 128) &&
                           (((128 <=? d) && (d <=? 138)) || (d =? 168) ||
                            (d =? 169) || (d =? 175)))%N then 3
                  else if ((b =? 226) && (c =? 129) && (d =? 159))%N then 3
                  else if ((b =? 227) && (c =? 128) && (d =? 128))%N then 3
                  else 0
              end
        end
  end%nat.

(** Dropping the leading whitespace; [skip] counts the bytes still to drop
    of the whitespace character under way. *)
Fixpoint lstrip_from (skip : nat) (s : list ascii) : list ascii :=
  match s with
  | [] => []
  | _ :: rest =>
      match skip with
      | S k => lstrip_from k rest
      | O =>
          match space_width s with
          | O => s
          | S k => lstrip_from k rest
          end
      end
  end.

Definition lstrip (s : list ascii) : list ascii := lstrip_from 0 s.

(** The characters up to the next whitespace character. *)
Fixpoint token (s : list ascii) : list ascii :=
  match s with
  | [] => []
  | b :: rest =>
      match space_width s with
      | O => b :: token rest
      | S _ => []
      end
  end.

(** Whether a text is empty or holds whitespace only: [m.split()] is then
    the empty list. *)
Definition blank (m : string) : bool :=
  match lstrip (list_ascii_of_string m) with
  | [] => true
  | _ :: _ => false
  end.

(** [m.split()[0]]: the first run of characters that are not whitespace;
    there is none in a blank text. *)
Definition split_first (m : string) : result string :=
  match token (lstrip (list_ascii_of_string m)) with
  | [] => Raise IndexError
  | t => Ok (string_of_list_ascii t)
  end.

(** A float that may be NaN ([None]), as [Series.max()] returns it. *)
Definition float := option Q.

(** [a > b] on such floats: false as soon as one side is NaN. *)
Definition gt (a b : float) : bool :=
  match a, b with
  | Some x, Some y => lt y x
  | _, _ => false
  end.

(** [max(a, b, c)]: the running maximum is replaced by a strictly greater
    item only. *)
Definition max3 (a b c : float) : float :=
  let m := a in
  let m := if gt b m then b else m in
  if gt c m then c else m.

End Py.

(** ** scripts/viz.py *)

Module Viz.

Open Scope Q_scope.

(** [back_calc_previous(current, pct_change)] *)
Definition back_calc_previous (current pct_change : Q) : result Q :=
  let denom := 1 + pct_change / 100 in
  if Py.truthy denom then Py.truediv current denom else Ok current.

(** [fmtd(val)] *)
Definition fmtd (val : Q) : string :=
  ("$" ++ Py.format_comma (Py.int val))%string.

(** [fmtd_signed(val)] *)
Definition fmtd_signed (val : Q) : string :=
  let sign := if Py.lt val 0 then "-"%string else ""%string in
  (sign ++ "$" ++ Py.format_comma (Z.abs (Py.int val)))%string.

(** *** KPI donut *)

(** The pie trace, the centre annotation and the title of a KPI donut. *)
Record donut_figure : Type := {
  donut_labels : list string;
  donut_values : list Q;
  donut_customdata : list string;
  donut_annotation : string;
  donut_title : string
}.

(** [make_kpi_donut(title, current, pct_change, prev)] *)
Definition make_kpi_donut (title : string) (current pct_change prev : Q)
  : donut_figure :=
  let remainder := Qabs (prev - current) in
  let remainder :=
    if Qeq_bool remainder 0 then Py.max2 (current * 0.05) 1
    else remainder in
  let delta_val := current - prev in
  let verb :=
    if Py.lt delta_val 0 then "reduction"%string else "increase"%string in
  let hover_text :=
    [ fmtd current ++ " current";
      fmtd_signed delta_val ++ "<br>" ++ verb ++ " vs<br>last month"
    ]%string in
  {| donut_labels := ["Current"; "Delta"]%string;
     donut_values := [current; remainder];
     donut_customdata := hover_text;
     donut_annotation := ("<b>" ++ fmtd current ++ "</b>")%string;
     donut_title := ("<b>" ++ title ++ "</b>")%string |}.

(** *** Series *)

(** [Series.max()]: the greatest value, NaN for an empty series. *)
Fixpoint series_max (xs : list Q) : Py.float :=
  match xs with
  | [] => None
  | x :: tl =>
      match series_max tl with
      | None => Some x
      | Some m => Some (Py.max2 x m)
      end
  end.

(** [Series.sum()] of an int64 column: every addition wraps around. *)
Definition series_sum (xs : list Z) : Z :=
  fold_left (fun acc x => Py.wrap64 (acc + x)) xs 0%Z.

(** *** Monthly stacked bar *)

(** A row of [monthly_savings_by_department.csv].  The savings are the
    integers the generator writes, which make an int64 column. *)
Record monthly_row : Type := {
  MonthYear : string;
  Department : string;
  Savings : Z
}.

Definition order : list string :=
  [ "Mar 2022"; "Apr 2022"; "May 2022"; "Jun 2022"; "Jul 2022";
    "Aug 2022"; "Sep 2022"; "Oct 2022"; "Nov 2022"; "Dec 2022";
    "Jan 2023"; "Feb 2023"; "Mar 2023" ]%string.

(** [df.groupby("MonthYear", observed=True)["Savings"].sum()] after the
    column was made categorical over [order]: one total per month of
    [order] that occurs in the frame, in the order of [order]; rows of any
    other month belong to no group.  The totals are int64 sums. *)
Definition monthly_totals (df : list monthly_row) : list Q :=
  flat_map
    (fun m =>
       match filter (fun r => String.eqb (MonthYear r) m) df with
       | [] => []
       | rows => [inject_Z (series_sum (map Savings rows))]
       end)
    order.

(** The y axis of [make_monthly_stacked], from the monthly totals:
    [ymax] and [tickvals].  [int] of a NaN maximum raises. *)
Definition monthly_stacked_yaxis (monthly_totals : list Q)
  : result (Z * list Z) :=
  match series_max monthly_totals with
  | None => Raise ValueError
  | Some m =>
      let ymax := (Py.ceil (m / 10000) * 10000)%Z in
      let ymax := Z.max ymax 60000 in
      let tickvals := Py.range 0 (ymax + 1) 10000 in
      Ok (ymax, tickvals)
  end.

(** The y axis of a chart. *)
Record yaxis : Type := {
  y_range : Z * Z;
  y_tickvals : list Z
}.

(** [make_monthly_stacked(monthly_df)]: the y axis of the figure. *)
Definition make_monthly_stacked (monthly_df : list monthly_row)
  : result yaxis :=
  a <- monthly_stacked_yaxis (monthly_totals monthly_df) ;;
  Ok {| y_range := (0%Z, fst a); y_tickvals := snd a |}.

(** *** ROI and forecast *)

(** The list comprehension [[m.split()[0] for m in months]]: it stops at
    the first blank label. *)
Fixpoint short_labels (months : list string) : result (list string) :=
  match months with
  | [] => Ok []
  | m :: ms =>
      t <- Py.split_first m ;;
      ts <- short_labels ms ;;
      Ok (t :: ts)
  end.

(** The two line traces and the two axes of the ROI chart. *)
Record roi_figure : Type := {
  actual_x : list string;
  actual_y : list Q;
  fcst_x : list string;
  fcst_y : list Q;
  x_tickvals : list string;
  x_ticktext : list string;
  roi_yaxis : yaxis
}.

(** [make_roi_forecast(roi_df, fcst_df)]; a row of either frame is a month
    and a value. *)
Definition make_roi_forecast (roi_df fcst_df : list (string * Q))
  : result roi_figure :=
  let actual_months := map fst roi_df in
  let forecast_months := map fst fcst_df in
  let all_months := actual_months ++ forecast_months in
  short <- short_labels all_months ;;
  last_roi_month <- Py.last actual_months ;;
  last_roi_value <- Py.last (map snd roi_df) ;;
  let fcst_x := last_roi_month :: forecast_months in
  let fcst_y := last_roi_value :: map snd fcst_df in
  let data_max :=
    Py.max3 (series_max (map snd roi_df)) (series_max (map snd fcst_df))
            (Some last_roi_value) in
  ymax <- match data_max with
          | None => Raise ValueError
          | Some d =>
              if Qle_bool d 40000 then Ok 40000%Z
              else Ok (Py.ceil (d / 5000) * 5000)%Z
          end ;;
  let ymin := 10000%Z in
  let tickvals := Py.range ymin (ymax + 1) 5000 in
  Ok {| actual_x := actual_months;
        actual_y := map snd roi_df;
        fcst_x := fcst_x;
        fcst_y := fcst_y;
        x_tickvals := all_months;
        x_ticktext := short;
        roi_yaxis := {| y_range := (ymin, ymax); y_tickvals := tickvals |} |}.

End Viz.

(** ** scripts/data_gen.py *)

Module DataGen.

Open Scope Q_scope.

(** A cell of a frame: a label or a number. *)
Inductive cell : Type :=
| Str (s : string)
| Num (q : Q).

(** What a data file holds: the JSON object of the KPIs (keys in insertion
    order) or a frame with its header. *)
Inductive file : Type :=
| JsonObject (items : list (string * Q))
| Csv (header : list string) (rows : list (list cell)).

(** The state the generator acts on: the seed of NumPy's global generator,
    the files of the [data] directory, and the lines printed. *)
Record world : Type := {
  rng_seed : option Z;
  files : list (string * file);
  stdout : list string
}.

(** [np.random.seed(seed)]: the legacy seeding takes an integer between 0
    and 2**32 - 1 and raises [ValueError] for any other. *)
Definition np_random_seed (seed : Z) (w : world) : result unit * world :=
  if ((0 <=? seed) && (seed <=? 2 ^ 32 - 1))%Z
  then (Ok tt, {| rng_seed := Some seed;
                  files := files w;
                  stdout := stdout w |})
  else (Raise ValueError, w).

(** Opening a file of [out_dir] for writing and dumping [f] into it: a file
    of that name is replaced. *)
Definition write (name : string) (f : file) (w : world) : world :=
  {| rng_seed := rng_seed w;
     files := (name, f)
              :: filter (fun p => negb (String.eqb (fst p) name)) (files w);
     stdout := stdout w |}.

Definition read (name : string) (w : world) : option file :=
  match find (fun p => String.eqb (fst p) name) (files w) with
  | Some p => Some (snd p)
  | None => None
  end.

Definition print (line : string) (w : world) : world :=
  {| rng_seed := rng_seed w;
     files := files w;
     stdout := stdout w ++ [line] |}.

(** [d[key]] on a dict given by its items. *)
Definition getitem {A : Type} (d : list (string * A)) (key : string)
  : result A :=
  match find (fun p => String.eqb (fst p) key) d with
  | Some p => Ok (snd p)
  | None => Raise KeyError
  end.

(** [DataFrame({c1: xs, c2: ys})] for a column of labels and a column of
    numbers of the same length. *)
Definition frame2 (c1 c2 : string) (xs : list string) (ys : list Q) : file :=
  Csv [c1; c2] (map (fun p => [Str (fst p); Num (snd p)]) (combine xs ys)).

(** *** 1. Top-level KPIs *)

Definition kpis : list (string * Q) :=
  [ ("cost_of_material", 10556);
    ("pct_change_material", -54.90);
    ("cost_of_avoidance", 6279);
    ("pct_change_avoidance", -54.42);
    ("savings", 16976);
    ("pct_change_savings", -55.50) ]%string.

(** *** 2. Savings by department *)

Definition savings_departments : list string :=
  [ "Transmissions"; "Sensors"; "Other"; "Machine"; "Forklift";
    "Batteries" ]%string.

Definition savings_values : list Q :=
  [ 97465; 84101; 90986; 88876; 85327; 102533 ].

(** *** 3. Monthly savings by department *)

Definition dept_order : list string :=
  [ "Transmissions"; "Sensors"; "Other"; "Machine"; "Forklift";
    "Batteries" ]%string.

(** One entry of [monthly_data]: the six departments in the order of the
    literal. *)
Definition month (name : string) (t s o m f b : Q)
  : string * list (string * Q) :=
  (name, [ ("Transmissions", t); ("Sensors", s); ("Other", o);
           ("Machine", m); ("Forklift", f); ("Batteries", b) ])%string.

Definition monthly_data : list (string * list (string * Q)) :=
  [ month "Mar 2022" 1902 2975 3468 6205 4406 1405;
    month "Apr 2022" 6261 10495 4046 6284 6446 5231;
    month "May 2022" 13257 2827 10726 6753 7032 10240;
    month "Jun 2022" 4383 5990 8505 8041 8872 10572;
    month "Jul 2022" 11684 11022 7536 8935 5728 11509;
    month "Aug 2022" 7680 8429 6317 6491 4994 7167;
    month "Sep 2022" 9415 5890 8829 9450 7755 6492;
    month "Oct 2022" 5858 12772 7769 6415 7677 13641;
    month "Nov 2022" 11993 5290 9131 6481 4274 9542;
    month "Dec 2022" 2829 5479 5896 6085 9988 10750;
    month "Jan 2023" 11413 3471 8423 9068 8813 7026;
    month "Feb 2023" 8750 7140 3964 4200 7050 7495;
    month "Mar 2023" 2040 2321 6376 4468 2292 1463 ].

(** The inner loop: one record per department of [dept_order]. *)
Fixpoint records_of_month (month_year : string) (depts : list (string * Q))
    (ds : list string) : result (list (list cell)) :=
  match ds with
  | [] => Ok []
  | dept :: ds' =>
      v <- getitem depts dept ;;
      rest <- records_of_month month_year depts ds' ;;
      Ok ([Str month_year; Str dept; Num v] :: rest)
  end.

(** The outer loop over [monthly_data.items()]. *)
Fixpoint records (items : list (string * list (string * Q)))
  : result (list (list cell)) :=
  match items with
  | [] => Ok []
  | (month_year, depts) :: items' =>
      rs <- records_of_month month_year depts dept_order ;;
      rest <- records items' ;;
      Ok (rs ++ rest)
  end.

(** *** 4a. Procurement ROI *)

Definition roi_months : list string :=
  [ "Mar 2022"; "Apr 2022"; "May 2022"; "Jun 2022"; "Jul 2022";
    "Aug 2022"; "Sep 2022"; "Oct 2022"; "Nov 2022"; "Dec 2022";
    "Jan 2023"; "Feb 2023"; "Mar 2023" ]%string.

Definition roi_values : list Q :=
  [ 15100; 25000; 35000; 28000; 36000;
    25300; 29000; 37000; 29000; 28500;
    28700; 24800; 12000 ].

(** *** 4b. ROI forecast *)

Definition forecast_months : list string :=
  [ "Apr 2023"; "May 2023"; "Jun 2023"; "Jul 2023"; "Aug 2023";
    "Sep 2023" ]%string.

Definition forecast_values : list Q :=
  [ 21000; 22000; 18800; 23000; 16000; 13500 ].

(** [main(seed)].  The [data] directory is part of the world, so creating
    it changes nothing here. *)
Definition main (seed : Z) (w : world) : result unit * world :=
  match np_random_seed seed w with
  | (Raise e, w) => (Raise e, w)
  | (Ok _, w) =>
      let w := write "procurement_kpis.json" (JsonObject kpis) w in
      let w := write "savings_by_department.csv"
                 (frame2 "Department" "Savings"
                         savings_departments savings_values) w in
      match records monthly_data with
      | Raise e => (Raise e, w)
      | Ok rs =>
          let w := write "monthly_savings_by_department.csv"
                     (Csv ["MonthYear"; "Department"; "Savings"]%string rs)
                     w in
          let w := write "procurement_roi.csv"
                     (frame2 "Month" "Procurement ROI"
                             roi_months roi_values) w in
          let w := write "procurement_forecast.csv"
                     (frame2 "Month" "Forecast"
                             forecast_months forecast_values) w in
          let w := print
            "Data generation complete. Files saved in 'data/' directory:"
            w in
          let w := print "- procurement_kpis.json" w in
          let w := print "- savings_by_department.csv" w in
          let w := print "- monthly_savings_by_department.csv" w in
          let w := print "- procurement_roi.csv" w in
          let w := print "- procurement_forecast.csv" w in
          (Ok tt, w)
      end
  end.

(** The five tables of the [data] directory, as a run leaves them. *)
Definition output_tables (w : world) : list (option file) :=
  map (fun name => read name w)
      [ "procurement_kpis.json"; "savings_by_department.csv";
        "monthly_savings_by_department.csv"; "procurement_roi.csv";
        "procurement_forecast.csv" ]%string.

(** A [data] directory with no file yet. *)
Definition empty_world : world :=
  {| rng_seed := None; files := []; stdout := [] |}.

End DataGen.

(** ** The same computations in binary64 *)

(** IEEE 754 double precision, on the specification of floating point of
    the standard library.  It serves to evaluate the code as the interpreter
    does at given inputs, next to the exact model above. *)
Module Binary64.

Definition prec : Z := 53.
Definition emax : Z := 1024.

Definition f64 : Type := spec_float.

(** Conversion of an integer, rounding to nearest even. *)
Definition of_Z (n : Z) : f64 := binary_normalize prec emax n 0 false.

Definition add : f64 -> f64 -> f64 := SFadd prec emax.
Definition sub : f64 -> f64 -> f64 := SFsub prec emax.
Definition mul : f64 -> f64 -> f64 := SFmul prec emax.
Definition div : f64 -> f64 -> f64 := SFdiv prec emax.

(** The float of a decimal literal [num / den], with [den] a power of ten:
    both are exact floats here, and the division rounds correctly. *)
Definition lit (num : Z) (den : positive) : f64 :=
  div (of_Z num) (of_Z (Zpos den)).

(** [x == 0], true for both zeros. *)
Definition is_zero (x : f64) : bool := SFeqb x (S754_zero false).

(** The exact value of a finite float. *)
Definition to_Q (x : f64) : option Q :=
  match x with
  | S754_zero _ => Some 0%Q
  | S754_finite s m e => Some (inject_Z (cond_Zopp s (Zpos m)) * 2 ^ e)%Q
  | _ => None
  end.

(** [int(x)]: truncation toward zero; raises for NaN and infinities. *)
Definition trunc (x : f64) : result Z :=
  match x with
  | S754_zero _ => Ok 0%Z
  | S754_finite s m e =>
      Ok (cond_Zopp s
            (match e with
             | Zneg k => Z.pos m / 2 ^ Z.pos k
             | _ => Z.pos m * 2 ^ e
             end))%Z
  | _ => Raise ValueError
  end.

(** [np.ceil(x)] of a finite float, as the integer it denotes. *)
Definition ceil (x : f64) : result Z :=
  match x with
  | S754_zero _ => Ok 0%Z
  | S754_finite s m e =>
      Ok (match e with
          | Zneg k => - ((- cond_Zopp s (Z.pos m)) / 2 ^ Z.pos k)
          | _ => cond_Zopp s (Z.pos m) * 2 ^ e
          end)%Z
  | _ => Raise ValueError
  end.

(** [back_calc_previous] on floats. *)
Definition back_calc_previous (current pct_change : f64) : f64 :=
  let denom := add (of_Z 1) (div pct_change (of_Z 100)) in
  if is_zero denom then current else div current denom.

(** [fmtd_signed] on a float. *)
Definition fmtd_signed (val : f64) : result string :=
  let sign := if SFltb val (S754_zero false) then "-"%string else ""%string in
  n <- trunc val ;;
  Ok (sign ++ "$" ++ Py.format_comma (Z.abs n))%string.

(** [fmtd] on a float. *)
Definition fmtd (val : f64) : result string :=
  n <- trunc val ;;
  Ok ("$" ++ Py.format_comma n)%string.

(** The remainder of [make_kpi_donut] on floats. *)
Definition remainder (current prev : f64) : f64 :=
  let r := SFabs (sub prev current) in
  if is_zero r then
    let scaled := mul current (lit 5 100) in
    if SFltb scaled (of_Z 1) then of_Z 1 else scaled
  else r.

(** [int(np.ceil(m / step) * step)] for an integer [m] read from a data
    file and a float constant [step]. *)
Definition ceil_to_step (m step : Z) : result Z :=
  c <- ceil (div (of_Z m) (of_Z step)) ;;
  trunc (mul (of_Z c) (of_Z step)).

(** [ymax] of [make_monthly_stacked] for an integer maximum. *)
Definition stacked_ymax (m : Z) : result Z :=
  y <- ceil_to_step m 10000 ;;
  Ok (Z.max y 60000).

(** [ymax] of [make_roi_forecast] for an integer maximum. *)
Definition roi_ymax (m : Z) : result Z :=
  if (m <=? 40000)%Z then Ok 40000%Z else ceil_to_step m 5000.

(** The exact model of the two axes, for an integer maximum. *)
Definition exact_stacked_ymax (m : Z) : Z :=
  Z.max (Py.ceil (inject_Z m / 10000) * 10000) 60000.

Definition exact_roi_ymax (m : Z) : Z :=
  if Qle_bool (inject_Z m) 40000 then 40000%Z
  else (Py.ceil (inject_Z m / 5000) * 5000)%Z.

(** Both axes agree with the exact model at [m]. *)
Definition axes_agree (m : Z) : bool :=
  match stacked_ymax m, roi_ymax m with
  | Ok y, Ok r =>
      ((y =? exact_stacked_ymax m) && (r =? exact_roi_ymax m))%Z
  | _, _ => false
  end.

(** The integers next to the multiples of 5000 from 0 to [5000 * n]:
    where a rounding error in the division would show. *)
Fixpoint near_multiples (n : nat) : list Z :=
  match n with
  | O => [-1; 0; 1]%Z
  | S k =>
      let c := (5000 * Z.of_nat n)%Z in
      near_multiples k ++ [c - 1; c; c + 1]%Z
  end.

End Binary64.

(** ** scripts/viz.py, the remaining charts *)

Module VizRest.

Open Scope Q_scope.

(** The colour table of [make_totals_pie], in the order of the literal. *)
Definition DEPT_COLORS : list (string * string) :=
  [ ("Batteries", "rgba(66, 133, 244, 0.76)");
    ("Forklift", "rgba(52, 168,  83, 0.80)");
    ("Machine", "rgba(242,142,  43, 0.85)");
    ("Other", "rgba(148,103, 189, 0.80)");
    ("Sensors", "rgba(255,199,  44, 0.80)");
    ("Transmissions", "rgba(233,  74, 126, 0.80)") ]%string.

(** The list comprehension [[DEPT_COLORS[d] for d in departments]]: it
    stops at the first department that is not a key. *)
Fixpoint colors_of (departments : list string) : result (list string) :=
  match departments with
  | [] => Ok []
  | d :: ds =>
      c <- DataGen.getitem DEPT_COLORS d ;;
      cs <- colors_of ds ;;
      Ok (c :: cs)
  end.

(** The pie trace of the totals chart. *)
Record pie_figure : Type := {
  pie_labels : list string;
  pie_values : list Q;
  pie_colors : list string
}.

(** [make_totals_pie(totals_df)]; a row is a department and its savings. *)
Definition make_totals_pie (totals_df : list (string * Q))
  : result pie_figure :=
  let labels := map fst totals_df in
  let values := map snd totals_df in
  colors <- colors_of (map fst totals_df) ;;
  Ok {| pie_labels := labels; pie_values := values; pie_colors := colors |}.

(** The KPI part of [create_dashboard] (lines 375 to 384): the three
    previous values, then the three donuts.  [kpi_s] is the series read from
    the JSON file, given by its items. *)
Definition create_dashboard_kpi_figs (kpi_s : list (string * Q))
  : result (list Viz.donut_figure) :=
  cur_m <- DataGen.getitem kpi_s "cost_of_material" ;;
  pct_m <- DataGen.getitem kpi_s "pct_change_material" ;;
  prev_material <- Viz.back_calc_previous cur_m pct_m ;;
  cur_a <- DataGen.getitem kpi_s "cost_of_avoidance" ;;
  pct_a <- DataGen.getitem kpi_s "pct_change_avoidance" ;;
  prev_avoid <- Viz.back_calc_previous cur_a pct_a ;;
  cur_s <- DataGen.getitem kpi_s "savings" ;;
  pct_s <- DataGen.getitem kpi_s "pct_change_savings" ;;
  prev_savings <- Viz.back_calc_previous cur_s pct_s ;;
  Ok [ Viz.make_kpi_donut "Cost of Material" cur_m pct_m prev_material;
       Viz.make_kpi_donut "Cost of Avoidance" cur_a pct_a prev_avoid;
       Viz.make_kpi_donut "Savings" cur_s pct_s prev_savings ].

(** Whether the month of a row is one of the categories of [Viz.order]:
    the rows for which the categorical column is not NaN. *)
Definition known_month (r : Viz.monthly_row) : bool :=
  existsb (String.eqb (Viz.MonthYear r)) Viz.order.

(** The grouping of [Viz.monthly_totals] over any list of categories. *)
Definition group_totals (categories : list string)
    (df : list Viz.monthly_row) : list Q :=
  flat_map
    (fun m =>
       match filter (fun r => String.eqb (Viz.MonthYear r) m) df with
       | [] => []
       | rows => [inject_Z (Viz.series_sum (map Viz.Savings rows))]
       end)
    categories.

End VizRest.

(** ** Where the two scripts look for the data *)

Module Paths.

(** A resolved absolute path, as its components below the root. *)
Definition path : Type := list string.

(** [p.parent]; the root is its own parent. *)
Definition parent (p : path) : path := removelast p.

(** [p.parents[i]]: there are as many parents as components. *)
Fixpoint parents (p : path) (i : nat) : result path :=
  match p with
  | [] => Raise IndexError
  | _ :: _ =>
      match i with
      | O => Ok (parent p)
      | S j => parents (parent p) j
      end
  end.

(** [p / name] *)
Definition joinpath (p : path) (name : string) : path := p ++ [name].

(** [out_dir] of [data_gen.main], from the path of [data_gen.py]. *)
Definition data_gen_out_dir (file : path) : path :=
  joinpath (parent file) "data".

(** The directory [d] of [viz.load_data(project_root)], from the path of
    [viz.py]. *)
Definition load_data_dir (project_root : option path) (file : path) : path :=
  let project_root :=
    match project_root with
    | None => parent file
    | Some r => r
    end in
  joinpath project_root "data".

(** The directory that [viz.py] run as a script loads from: [root] is
    [parents[1]] of the path of the script. *)
Definition viz_main_data_dir (file : path) : result path :=
  root <- parents file 1 ;;
  Ok (load_data_dir (Some root) file).

(** [out_path] of [viz.py] run as a script. *)
Definition viz_main_out_path (file : path) : result path :=
  root <- parents file 1 ;;
  Ok (joinpath (joinpath root "outputs") "dashboard.html").

End Paths.

(** * Properties *)

Open Scope Q_scope.

Lemma denom_zero_iff (pct : Q) : 1 + pct / 100 == 0 <-> pct == -100.
Proof.
  split; intro H.
  - assert (E : pct == (1 + pct / 100) * 100 - 100) by (field).
    rewrite E, H. reflexivity.
  - rewrite H. reflexivity.
Qed.

Lemma denom_zero_bool (pct : Q) :
  Qeq_bool (1 + pct / 100) 0 = Qeq_bool pct (-100).
Proof.
  destruct (Qeq_bool pct (-100)) eqn:E.
  - apply Qeq_bool_iff, denom_zero_iff, Qeq_bool_iff, E.
  - destruct (Qeq_bool (1 + pct / 100) 0) eqn:E'; [|reflexivity].
    apply Qeq_bool_iff, denom_zero_iff, Qeq_bool_iff in E'. congruence.
Qed.

(** C1. For every [current] and [pct_change], [back_calc_previous] returns
    normally (no division error): it returns [current] unchanged when
    [pct_change == -100], which is exactly when [1 + pct_change/100 == 0], and
    [current / (1 + pct_change/100)] for every other [pct_change]. *)
Theorem back_calc_previous_spec (current pct_change : Q) :
  Viz.back_calc_previous current pct_change =
  Ok (if Qeq_bool pct_change (-100)
      then current
      else current / (1 + pct_change / 100)).
Proof.
  unfold Viz.back_calc_previous, Py.truthy, Py.truediv.
  rewrite denom_zero_bool.
  destruct (Qeq_bool pct_change (-100)); reflexivity.
Qed.

(** ** Comparisons and truncation *)

Lemma py_lt_iff (x y : Q) : Py.lt x y = true <-> x < y.
Proof.
  unfold Py.lt. rewrite negb_true_iff. split; intro H.
  - apply Qnot_le_lt. intro L. apply Qle_bool_iff in L. congruence.
  - destruct (Qle_bool y x) eqn:E; [|reflexivity].
    apply Qle_bool_iff in E. exfalso. exact (Qlt_not_le _ _ H E).
Qed.

Lemma py_lt_false_iff (x y : Q) : Py.lt x y = false <-> y <= x.
Proof.
  unfold Py.lt. rewrite negb_false_iff. apply Qle_bool_iff.
Qed.

(** [int] drops the fractional part: the magnitude of [int(val)] is the
    integer part of the magnitude of [val]. *)
Lemma py_int_abs (val : Q) : Z.abs (Py.int val) = Qfloor (Qabs val).
Proof.
  destruct val as [n d]. unfold Py.int, Qabs, Qfloor. simpl.
  rewrite <- Z.quot_abs by discriminate. simpl Z.abs at 2.
  apply Z.quot_div_nonneg; [apply Z.abs_nonneg | reflexivity].
Qed.

(** [int] rounds toward zero: down for a value that is not negative, up for
    a negative one. *)
Lemma py_int_toward_zero (val : Q) :
  Py.int val = if Py.lt val 0 then Qceiling val else Qfloor val.
Proof.
  destruct (Py.lt val 0) eqn:E.
  - apply py_lt_iff in E. destruct val as [n d].
    unfold Qlt in E. simpl in E.
    unfold Py.int, Qceiling, Qfloor, Qopp. simpl.
    replace n with (- (- n))%Z at 1 by lia.
    rewrite Z.quot_opp_l by discriminate.
    rewrite Z.quot_div_nonneg by lia. reflexivity.
  - apply py_lt_false_iff in E. destruct val as [n d].
    unfold Qle in E. simpl in E.
    unfold Py.int, Qfloor. simpl.
    apply Z.quot_div_nonneg; lia.
Qed.

Lemma qfloor_small (x : Q) : 0 <= x -> x < 1 -> Qfloor x = 0%Z.
Proof.
  destruct x as [n d]. unfold Qle, Qlt, Qfloor. simpl. intros H0 H1.
  apply Z.div_small. lia.
Qed.

(** ** Currency formatting *)

Lemma fmtd_signed_unfold (val : Q) :
  Viz.fmtd_signed val =
  ((if Py.lt val 0 then "-" else "") ++ "$" ++
   Py.format_comma (Qfloor (Qabs val)))%string.
Proof.
  unfold Viz.fmtd_signed. rewrite py_int_abs. reflexivity.
Qed.

(** C8. The formatters truncate toward zero: [fmtd_signed(-1234.9)] is
    ["-$1,234"], [fmtd_signed(0)] is ["$0"], [fmtd(1234.9)] is ["$1,234"].
    [fmtd_signed] writes a ["-"] in front exactly when its input is negative,
    then the dollar sign and the integer part of the absolute value with
    thousands separators; [fmtd] formats the input rounded toward zero. *)
Theorem fmtd_truncation :
  Viz.fmtd_signed (-1234.9) = "-$1,234"%string /\
  Viz.fmtd_signed 0 = "$0"%string /\
  Viz.fmtd 1234.9 = "$1,234"%string /\
  (forall val : Q,
     (val < 0 /\
      Viz.fmtd_signed val =
      ("-$" ++ Py.format_comma (Qfloor (Qabs val)))%string) \/
     (0 <= val /\
      Viz.fmtd_signed val =
      ("$" ++ Py.format_comma (Qfloor (Qabs val)))%string)) /\
  (forall val : Q,
     String.prefix "-" (Viz.fmtd_signed val) = true <-> val < 0) /\
  (forall val : Q,
     (val < 0 /\
      Viz.fmtd val = ("$" ++ Py.format_comma (Qceiling val))%string) \/
     (0 <= val /\
      Viz.fmtd val = ("$" ++ Py.format_comma (Qfloor val))%string)).
Proof.
  repeat split; try reflexivity.
  - intro val. rewrite fmtd_signed_unfold.
    destruct (Py.lt val 0) eqn:E.
    + left. split; [apply py_lt_iff, E | reflexivity].
    + right. split; [apply py_lt_false_iff, E | reflexivity].
  - rewrite fmtd_signed_unfold. destruct (Py.lt val 0) eqn:E.
    + intros _. apply py_lt_iff, E.
    + simpl. discriminate.
  - intro H. apply py_lt_iff in H. rewrite fmtd_signed_unfold, H.
    reflexivity.
  - intro val. unfold Viz.fmtd. rewrite py_int_toward_zero.
    destruct (Py.lt val 0) eqn:E.
    + left. split; [apply py_lt_iff, E | reflexivity].
    + right. split; [apply py_lt_false_iff, E | reflexivity].
Qed.

(** C10. For every [val] with [-1 < val < 0], [fmtd_signed(val)] is
    ["-$0"]: the sign comes from the value before truncation. *)
Theorem fmtd_signed_negative_fraction (val : Q) :
  -1 < val -> val < 0 -> Viz.fmtd_signed val = "-$0"%string.
Proof.
  intros Hlo Hhi. rewrite fmtd_signed_unfold.
  rewrite (proj2 (py_lt_iff val 0) Hhi).
  rewrite qfloor_small; [reflexivity | apply Qabs_nonneg |].
  apply Qabs_case; intro Hs.
  - exfalso. exact (Qlt_not_le _ _ Hhi Hs).
  - destruct val as [n d]. unfold Qlt, Qopp in *. simpl in *. lia.
Qed.

Lemma fmtd_signed_negative_fraction_witness :
  Viz.fmtd_signed (-0.5) = "-$0"%string.
Proof.
  apply fmtd_signed_negative_fraction; reflexivity.
Defined.

(** ** Maximum of two numbers *)

Lemma max2_cases (a b : Q) :
  (a < b /\ Py.max2 a b = b) \/ (b <= a /\ Py.max2 a b = a).
Proof.
  unfold Py.max2. destruct (Py.lt a b) eqn:E.
  - left. split; [apply py_lt_iff, E | reflexivity].
  - right. split; [apply py_lt_false_iff, E | reflexivity].
Qed.

Lemma max2_le_l (a b : Q) : a <= Py.max2 a b.
Proof.
  destruct (max2_cases a b) as [[H ->] | [H ->]].
  - apply Qlt_le_weak, H.
  - apply Qle_refl.
Qed.

Lemma max2_le_r (a b : Q) : b <= Py.max2 a b.
Proof.
  destruct (max2_cases a b) as [[H ->] | [H ->]].
  - apply Qle_refl.
  - exact H.
Qed.

Lemma max2_Qmax (a b : Q) : Py.max2 a b == Qmax a b.
Proof.
  destruct (max2_cases a b) as [[H ->] | [H ->]].
  - symmetry. apply Q.max_r, Qlt_le_weak, H.
  - symmetry. apply Q.max_l, H.
Qed.

(** ** KPI donut *)

Lemma donut_values_unfold (title : string) (current pct_change prev : Q) :
  Viz.donut_values (Viz.make_kpi_donut title current pct_change prev) =
  [current;
   if Qeq_bool (Qabs (prev - current)) 0
   then Py.max2 (current * 0.05) 1
   else Qabs (prev - current)].
Proof. reflexivity. Qed.

(** The remainder is strictly positive, whichever branch computes it. *)
Lemma remainder_positive (current prev : Q) :
  0 < (if Qeq_bool (Qabs (prev - current)) 0
       then Py.max2 (current * 0.05) 1
       else Qabs (prev - current)).
Proof.
  destruct (Qeq_bool (Qabs (prev - current)) 0) eqn:E.
  - apply Qlt_le_trans with 1; [reflexivity | apply max2_le_r].
  - apply Qeq_bool_neq in E.
    destruct (Qle_lt_or_eq _ _ (Qabs_nonneg (prev - current))) as [H | H].
    + exact H.
    + exfalso. apply E. symmetry. exact H.
Qed.

(** C6. The second value of the donut is [abs(prev - current)], except that
    it is [max(current * 0.05, 1)] when [abs(prev - current) == 0]; it is
    never [0].  For [current = 100] and [prev = 100] it is [5]. *)
Theorem donut_remainder :
  (forall (title : string) (current pct_change prev : Q),
     exists remainder : Q,
       Viz.donut_values (Viz.make_kpi_donut title current pct_change prev) =
       [current; remainder] /\
       ((~ Qabs (prev - current) == 0 /\
         remainder = Qabs (prev - current)) \/
        (Qabs (prev - current) == 0 /\
         remainder == Qmax (current * 0.05) 1)) /\
       ~ remainder == 0) /\
  (forall (title : string) (pct_change : Q),
     exists remainder : Q,
       Viz.donut_values (Viz.make_kpi_donut title 100 pct_change 100) =
       [100; remainder] /\
       remainder == 5).
Proof.
  split.
  - intros title current pct_change prev.
    rewrite donut_values_unfold.
    pose proof (remainder_positive current prev) as Hpos.
    destruct (Qeq_bool (Qabs (prev - current)) 0) eqn:E.
    + eexists. split; [reflexivity|]. split.
      * right. split; [apply Qeq_bool_iff, E | apply max2_Qmax].
      * intro H0. rewrite H0 in Hpos. discriminate Hpos.
    + eexists. split; [reflexivity|]. split.
      * left. split; [apply Qeq_bool_neq, E | reflexivity].
      * intro H0. rewrite H0 in Hpos. discriminate Hpos.
  - intros title pct_change. rewrite donut_values_unfold.
    eexists. split; reflexivity.
Qed.

(** C7, as the code has it.  The remainder handed to the pie trace is
    strictly positive for every [current] and [prev]; [current] is handed
    over as it is, so the two values are both strictly positive exactly when
    [current] is. *)
Theorem donut_values_positive (title : string) (current pct_change prev : Q) :
  exists remainder : Q,
    Viz.donut_values (Viz.make_kpi_donut title current pct_change prev) =
    [current; remainder] /\
    0 < remainder /\
    (Forall (fun v => 0 < v)
       (Viz.donut_values (Viz.make_kpi_donut title current pct_change prev))
     <-> 0 < current).
Proof.
  rewrite donut_values_unfold.
  eexists. split; [reflexivity|].
  pose proof (remainder_positive current prev) as Hr.
  split; [exact Hr|]. split.
  - intro H. inversion H; assumption.
  - intro H. repeat constructor; assumption.
Qed.

(** C7, as the spec words it, fails: a negative [current] is passed on as it
    is.  With [current = -100], of which the previous value at a change of
    25 percent is [-80], the values handed over are [-100] and [20]. *)
Lemma donut_values_not_always_positive :
  ~ Forall (fun v => 0 < v)
      (Viz.donut_values (Viz.make_kpi_donut "Savings" (-100) 25 (-80))).
Proof.
  intro H. inversion H as [|v l Hv _]. discriminate Hv.
Qed.

(** ** [range] *)

Lemma range_length (start stop step : Z) :
  List.length (Py.range start stop step) =
  Z.to_nat ((stop - start + step - 1) / step).
Proof.
  unfold Py.range. rewrite length_map, length_seq. reflexivity.
Qed.

(** A [range] whose last admitted value is [start + n * step]. *)
Lemma range_through (start step : Z) (n : nat) :
  (0 < step)%Z ->
  Py.range start (start + Z.of_nat n * step + 1) step =
  map (fun k => (start + Z.of_nat k * step)%Z) (seq 0 (S n)).
Proof.
  intro Hs. unfold Py.range. f_equal. f_equal.
  replace (start + Z.of_nat n * step + 1 - start + step - 1)%Z
    with ((Z.of_nat n + 1) * step)%Z by ring.
  rewrite Z.div_mul by lia. lia.
Qed.

(** Membership in a [range] with a positive step. *)
Lemma range_In (start stop step t : Z) :
  (0 < step)%Z ->
  In t (Py.range start stop step) <->
  (start <= t < stop)%Z /\ (step | t - start)%Z.
Proof.
  intro Hs. unfold Py.range. rewrite in_map_iff. split.
  - intros [k [<- Hk]]. apply in_seq in Hk. simpl in Hk.
    destruct Hk as [_ Hk]. split.
    + split; [nia|].
      assert (Hq : (Z.of_nat k < (stop - start + step - 1) / step)%Z)
        by lia.
      assert (Hd : (step * ((stop - start + step - 1) / step)
                    <= stop - start + step - 1)%Z)
        by (apply Z.mul_div_le; assumption).
      nia.
    + exists (Z.of_nat k). ring.
  - intros [[Hlo Hhi] [q Hq]].
    assert (Hq0 : (0 <= q)%Z) by nia.
    exists (Z.to_nat q). split.
    + rewrite Z2Nat.id by assumption. lia.
    + apply in_seq. simpl. split; [lia|].
      assert (Hq1 : (q + 1 <= (stop - start + step - 1) / step)%Z)
        by (apply Z.div_le_lower_bound; [assumption | nia]).
      lia.
Qed.

(** ** [Series.max] *)

Lemma series_max_nonempty (xs : list Q) :
  xs <> [] -> exists m, Viz.series_max xs = Some m.
Proof.
  destruct xs as [|x tl]; [congruence|]. intros _. simpl.
  destruct (Viz.series_max tl); eexists; reflexivity.
Qed.

Lemma series_max_empty (xs : list Q) :
  Viz.series_max xs = None -> xs = [].
Proof.
  destruct xs as [|x tl]; [reflexivity|]. simpl.
  destruct (Viz.series_max tl); discriminate.
Qed.

(** The value returned is a value of the series and bounds all of them. *)
Lemma series_max_spec (xs : list Q) (m : Q) :
  Viz.series_max xs = Some m ->
  In m xs /\ forall x, In x xs -> x <= m.
Proof.
  revert m. induction xs as [|a tl IH]; intros m H; [discriminate|].
  simpl in H. destruct (Viz.series_max tl) as [m'|] eqn:E.
  - injection H as <-. destruct (IH m' eq_refl) as [Hin Hub]. split.
    + destruct (max2_cases a m') as [[_ ->] | [_ ->]];
        [right; exact Hin | left; reflexivity].
    + intros x [<- | Hx].
      * apply max2_le_l.
      * apply Qle_trans with m'; [apply Hub, Hx | apply max2_le_r].
  - injection H as <-. apply series_max_empty in E. subst tl. split.
    + left. reflexivity.
    + intros x [<- | []]. apply Qle_refl.
Qed.

(** Two greatest values of one series are equal numbers. *)
Lemma greatest_unique (xs : list Q) (m m' : Q) :
  In m xs -> (forall x, In x xs -> x <= m) ->
  In m' xs -> (forall x, In x xs -> x <= m') ->
  m == m'.
Proof.
  intros Hin Hub Hin' Hub'. apply Qle_antisym; auto.
Qed.

(** ** Axis of the stacked bar chart *)

Lemma ceil_step_multiple (c : Z) :
  (Z.max (c * 10000) 60000 = 10000 * Z.of_nat (Z.to_nat (Z.max c 6)))%Z.
Proof. lia. Qed.

Lemma ticks_10000 (n : nat) :
  Py.range 0 (10000 * Z.of_nat n + 1) 10000 =
  map (fun k => (10000 * Z.of_nat k)%Z) (seq 0 (S n)).
Proof.
  replace (10000 * Z.of_nat n + 1)%Z
    with (0 + Z.of_nat n * 10000 + 1)%Z by ring.
  rewrite range_through by lia.
  apply map_ext. intro k. ring.
Qed.

(** C2. For every non-empty list of monthly totals with greatest value [m],
    the y axis of the stacked bar chart has
    [ymax = max(ceil(m / 10000) * 10000, 60000)], so never less than 60000;
    [ymax] is [10000 * n] and the tick values are [0, 10000, ..., 10000 * n],
    which are the multiples of 10000 from 0 to [ymax] inclusive.  A greatest
    total of 5000 gives [ymax = 60000].  [make_monthly_stacked] hands this
    axis to the figure. *)
Theorem monthly_stacked_axis (totals : list Q) :
  totals <> [] ->
  exists (m : Q) (ymax : Z) (n : nat),
    In m totals /\
    (forall x, In x totals -> x <= m) /\
    Viz.monthly_stacked_yaxis totals =
    Ok (ymax, map (fun k => (10000 * Z.of_nat k)%Z) (seq 0 (S n))) /\
    ymax = Z.max (Qceiling (m / 10000) * 10000) 60000 /\
    (60000 <= ymax)%Z /\
    ymax = (10000 * Z.of_nat n)%Z /\
    (forall t : Z,
       In t (map (fun k => (10000 * Z.of_nat k)%Z) (seq 0 (S n))) <->
       (0 <= t <= ymax)%Z /\ (10000 | t)%Z) /\
    (m == 5000 -> ymax = 60000%Z) /\
    (forall df : list Viz.monthly_row,
       Viz.monthly_totals df = totals ->
       Viz.make_monthly_stacked df =
       Ok {| Viz.y_range := (0%Z, ymax);
             Viz.y_tickvals :=
               map (fun k => (10000 * Z.of_nat k)%Z) (seq 0 (S n)) |}).
Proof.
  intro Hne. destruct (series_max_nonempty Hne) as [m Hm].
  destruct (series_max_spec _ Hm) as [Hin Hub].
  set (n := Z.to_nat (Z.max (Qceiling (m / 10000)) 6)).
  assert (Hy : (Z.max (Qceiling (m / 10000) * 10000) 60000
                = 10000 * Z.of_nat n)%Z) by apply ceil_step_multiple.
  assert (Hax : Viz.monthly_stacked_yaxis totals =
                Ok (Z.max (Qceiling (m / 10000) * 10000) 60000,
                    map (fun k => (10000 * Z.of_nat k)%Z) (seq 0 (S n)))).
  { unfold Viz.monthly_stacked_yaxis, Py.ceil. rewrite Hm.
    rewrite <- ticks_10000, <- Hy. reflexivity. }
  exists m, (Z.max (Qceiling (m / 10000) * 10000) 60000), n.
  repeat split; try assumption; try lia.
  - rewrite <- ticks_10000, <- Hy in H.
    apply range_In in H; [|lia]. lia.
  - rewrite <- ticks_10000, <- Hy in H.
    apply range_In in H; [|lia]. lia.
  - rewrite <- ticks_10000, <- Hy in H.
    apply range_In in H; [|lia].
    destruct H as [_ H]. rewrite Z.sub_0_r in H. exact H.
  - intros [[Hlo Hhi] Hdiv]. rewrite <- ticks_10000, <- Hy.
    apply range_In; [lia|]. split; [lia|].
    rewrite Z.sub_0_r. exact Hdiv.
  - intro E. rewrite (Qceiling_comp (m / 10000) (5000 / 10000)).
    + reflexivity.
    + rewrite E. reflexivity.
  - intros df Hdf. unfold Viz.make_monthly_stacked.
    rewrite Hdf, Hax. reflexivity.
Qed.

Lemma monthly_stacked_axis_witness :
  exists (m : Q) (ymax : Z) (n : nat),
    In m [5000; 3000] /\
    (forall x, In x [5000; 3000] -> x <= m) /\
    Viz.monthly_stacked_yaxis [5000; 3000] =
    Ok (ymax, map (fun k => (10000 * Z.of_nat k)%Z) (seq 0 (S n))) /\
    ymax = Z.max (Qceiling (m / 10000) * 10000) 60000 /\
    (60000 <= ymax)%Z /\
    ymax = (10000 * Z.of_nat n)%Z /\
    (forall t : Z,
       In t (map (fun k => (10000 * Z.of_nat k)%Z) (seq 0 (S n))) <->
       (0 <= t <= ymax)%Z /\ (10000 | t)%Z) /\
    (m == 5000 -> ymax = 60000%Z) /\
    (forall df : list Viz.monthly_row,
       Viz.monthly_totals df = [5000; 3000] ->
       Viz.make_monthly_stacked df =
       Ok {| Viz.y_range := (0%Z, ymax);
             Viz.y_tickvals :=
               map (fun k => (10000 * Z.of_nat k)%Z) (seq 0 (S n)) |}).
Proof.
  apply (@monthly_stacked_axis [5000; 3000]). discriminate.
Defined.

(** C3, as the code has it.  For monthly totals whose greatest value is
    42000 the rounded value 50000 is below the floor: the axis has
    [ymax = 60000] and the tick values [0, 10000, ..., 60000]. *)
Theorem monthly_stacked_axis_42000 (totals : list Q) (m : Q) :
  In m totals ->
  (forall x, In x totals -> x <= m) ->
  m == 42000 ->
  (Qceiling (m / 10000) * 10000 = 50000)%Z /\
  Viz.monthly_stacked_yaxis totals =
  Ok (60000%Z,
      [0; 10000; 20000; 30000; 40000; 50000; 60000]%Z).
Proof.
  intros Hin Hub E.
  assert (Hne : totals <> []) by (intro; subst; contradiction).
  destruct (series_max_nonempty Hne) as [m' Hm'].
  destruct (series_max_spec _ Hm') as [Hin' Hub'].
  assert (E' : m' == 42000).
  { rewrite <- E. exact (greatest_unique _ Hin' Hub' Hin Hub). }
  split.
  - rewrite (Qceiling_comp (m / 10000) (42000 / 10000)).
    + reflexivity.
    + rewrite E. reflexivity.
  - unfold Viz.monthly_stacked_yaxis, Py.ceil. rewrite Hm'.
    rewrite (Qceiling_comp (m' / 10000) (42000 / 10000)).
    + reflexivity.
    + rewrite E'. reflexivity.
Qed.

Lemma monthly_stacked_axis_42000_witness :
  (Qceiling (42000 / 10000) * 10000 = 50000)%Z /\
  Viz.monthly_stacked_yaxis [30000; 42000; 12500] =
  Ok (60000%Z,
      [0; 10000; 20000; 30000; 40000; 50000; 60000]%Z).
Proof.
  apply (@monthly_stacked_axis_42000 [30000; 42000; 12500] 42000).
  - simpl. right. left. reflexivity.
  - intros x [<- | [<- | [<- | []]]]; discriminate.
  - reflexivity.
Defined.

(** C3, as the spec words it, fails: with a greatest total of 42000 the
    axis is not [ymax = 50000] with ticks up to 50000. *)
Lemma monthly_stacked_axis_42000_not_50000 :
  Viz.monthly_stacked_yaxis [30000; 42000; 12500] <>
  Ok (50000%Z, [0; 10000; 20000; 30000; 40000; 50000]%Z).
Proof. discriminate. Qed.

(** ** ROI chart *)

Lemma py_last_snoc (A : Type) (xs : list A) (x : A) :
  Py.last (xs ++ [x]) = Ok x.
Proof.
  unfold Py.last. rewrite rev_app_distr. reflexivity.
Qed.

Lemma combine_fst_snd (A B : Type) (l : list (A * B)) :
  combine (map fst l) (map snd l) = l.
Proof.
  induction l as [|[a b] l IH]; simpl; [reflexivity | now rewrite IH].
Qed.

(** [data_max] of [make_roi_forecast]: with [l] a value of the actual
    series it is the greatest value of the two series together, whether or
    not the forecast series is empty. *)
Lemma roi_data_max (actual forecast : list Q) (l : Q) :
  In l actual ->
  exists d : Q,
    Py.max3 (Viz.series_max actual) (Viz.series_max forecast) (Some l)
    = Some d /\
    In d (actual ++ forecast) /\
    forall x, In x (actual ++ forecast) -> x <= d.
Proof.
  intro Hl.
  assert (Hne : actual <> []) by (intro; subst; contradiction).
  destruct (series_max_nonempty Hne) as [ma Hma].
  destruct (series_max_spec _ Hma) as [Hain Haub].
  rewrite Hma. unfold Py.max3.
  destruct (Viz.series_max forecast) as [mf|] eqn:Ef.
  - destruct (series_max_spec _ Ef) as [Hfin Hfub].
    simpl. destruct (Py.lt ma mf) eqn:Ec.
    + apply py_lt_iff in Ec. simpl.
      assert (El : Py.lt mf l = false).
      { apply py_lt_false_iff. apply Qle_trans with ma;
          [apply Haub, Hl | apply Qlt_le_weak, Ec]. }
      rewrite El. exists mf. split; [reflexivity|]. split.
      * apply in_or_app. right. exact Hfin.
      * intros x Hx. apply in_app_or in Hx as [Hx | Hx].
        -- apply Qle_trans with ma;
             [apply Haub, Hx | apply Qlt_le_weak, Ec].
        -- apply Hfub, Hx.
    + apply py_lt_false_iff in Ec. simpl.
      assert (El : Py.lt ma l = false)
        by (apply py_lt_false_iff, Haub, Hl).
      rewrite El. exists ma. split; [reflexivity|]. split.
      * apply in_or_app. left. exact Hain.
      * intros x Hx. apply in_app_or in Hx as [Hx | Hx].
        -- apply Haub, Hx.
        -- apply Qle_trans with mf; [apply Hfub, Hx | exact Ec].
  - apply series_max_empty in Ef. subst forecast. simpl.
    assert (El : Py.lt ma l = false)
      by (apply py_lt_false_iff, Haub, Hl).
    rewrite El. exists ma. rewrite app_nil_r.
    split; [reflexivity|]. split; assumption.
Qed.

(** The upper end of the ROI axis, from the data maximum. *)
Lemma roi_ymax_shape (d : Q) :
  exists (ymax : Z) (n : nat),
    (if Qle_bool d 40000 then Ok 40000%Z
     else Ok (Py.ceil (d / 5000) * 5000)%Z) = Ok ymax /\
    ((d <= 40000 /\ ymax = 40000%Z) \/
     (40000 < d /\ ymax = (Qceiling (d / 5000) * 5000)%Z)) /\
    ymax = (10000 + Z.of_nat n * 5000)%Z.
Proof.
  destruct (Qle_bool d 40000) eqn:E.
  - exists 40000%Z, 6%nat. split; [reflexivity|]. split; [|reflexivity].
    left. split; [apply Qle_bool_iff, E | reflexivity].
  - assert (Hd : 40000 < d).
    { apply Qnot_le_lt. intro H. apply Qle_bool_iff in H. congruence. }
    assert (Hc : (8 < Qceiling (d / 5000))%Z).
    { rewrite Zlt_Qlt.
      apply Qlt_le_trans with (d / 5000); [|apply Qle_ceiling].
      apply Qlt_shift_div_l; [reflexivity | exact Hd]. }
    exists (Qceiling (d / 5000) * 5000)%Z,
           (Z.to_nat (Qceiling (d / 5000) - 2)).
    split; [reflexivity|]. split; [|lia].
    right. split; [exact Hd | reflexivity].
Qed.

Lemma ticks_5000 (n : nat) :
  Py.range 10000 (10000 + Z.of_nat n * 5000 + 1) 5000 =
  map (fun k => (10000 + 5000 * Z.of_nat k)%Z) (seq 0 (S n)).
Proof.
  rewrite range_through by lia.
  apply map_ext. intro k. ring.
Qed.

(** *** Month labels *)

(** What is left after the leading whitespace does not start with
    whitespace. *)
Lemma lstrip_from_head (s : list ascii) (skip : nat) :
  Py.lstrip_from skip s = [] \/
  Py.space_width (Py.lstrip_from skip s) = 0%nat.
Proof.
  revert skip. induction s as [|a s IH]; intro skip.
  - left. reflexivity.
  - cbn [Py.lstrip_from]. destruct skip as [|k]; [|apply IH].
    destruct (Py.space_width (a :: s)) as [|k] eqn:E; [|apply IH].
    right. exact E.
Qed.

(** [m.split()[0]] exists exactly when the label is not blank. *)
Lemma split_first_cases (m : string) :
  (Py.blank m = true /\ Py.split_first m = Raise IndexError) \/
  (Py.blank m = false /\ exists t : string, Py.split_first m = Ok t).
Proof.
  unfold Py.blank, Py.split_first, Py.lstrip.
  destruct (lstrip_from_head (list_ascii_of_string m) 0) as [E | E].
  - rewrite E. left. split; reflexivity.
  - destruct (Py.lstrip_from 0 (list_ascii_of_string m)) as [|b rest].
    + left. split; reflexivity.
    + right. split; [reflexivity|]. cbn [Py.token]. rewrite E.
      eexists. reflexivity.
Qed.

(** The tick texts exist exactly when no label is blank. *)
Lemma short_labels_cases (months : list string) :
  (Forall (fun m => Py.blank m = false) months /\
   exists short : list string, Viz.short_labels months = Ok short) \/
  (~ Forall (fun m => Py.blank m = false) months /\
   Viz.short_labels months = Raise IndexError).
Proof.
  induction months as [|m ms IH].
  - left. split; [constructor | eexists; reflexivity].
  - cbn [Viz.short_labels].
    destruct (split_first_cases m) as [[Hb Hs] | [Hb [t Hs]]]; rewrite Hs.
    + right. split; [|reflexivity].
      intro F. inversion F; subst. congruence.
    + cbn [bind]. destruct IH as [[Hall [short Hsh]] | [Hnot Hsh]];
        rewrite Hsh; cbn [bind].
      * left. split; [constructor; assumption | eexists; reflexivity].
      * right. split; [|reflexivity].
        intro F. inversion F; subst. contradiction.
Qed.

(** What [make_roi_forecast] returns for an actual series that ends with
    the point [(last_period, last_value)], when no month label is blank. *)
Lemma make_roi_forecast_snoc (roi_init fcst_df : list (string * Q))
    (last_period : string) (last_value : Q) :
  Forall (fun m => Py.blank m = false)
         (map fst (roi_init ++ [(last_period, last_value)])
          ++ map fst fcst_df) ->
  exists (short : list string) (m : Q) (ymax : Z) (n : nat),
    Viz.make_roi_forecast (roi_init ++ [(last_period, last_value)]) fcst_df
    = Ok {| Viz.actual_x := map fst (roi_init ++ [(last_period, last_value)]);
            Viz.actual_y := map snd (roi_init ++ [(last_period, last_value)]);
            Viz.fcst_x := last_period :: map fst fcst_df;
            Viz.fcst_y := last_value :: map snd fcst_df;
            Viz.x_tickvals :=
              map fst (roi_init ++ [(last_period, last_value)])
              ++ map fst fcst_df;
            Viz.x_ticktext := short;
            Viz.roi_yaxis :=
              {| Viz.y_range := (10000%Z, ymax);
                 Viz.y_tickvals :=
                   map (fun k => (10000 + 5000 * Z.of_nat k)%Z)
                       (seq 0 (S n)) |} |} /\
    In m (map snd (roi_init ++ [(last_period, last_value)])
          ++ map snd fcst_df) /\
    (forall x,
       In x (map snd (roi_init ++ [(last_period, last_value)])
             ++ map snd fcst_df) -> x <= m) /\
    ((m <= 40000 /\ ymax = 40000%Z) \/
     (40000 < m /\ ymax = (Qceiling (m / 5000) * 5000)%Z)) /\
    ymax = (10000 + Z.of_nat n * 5000)%Z.
Proof.
  intro Hlab.
  set (roi_df := roi_init ++ [(last_period, last_value)]) in *.
  destruct (short_labels_cases (map fst roi_df ++ map fst fcst_df))
    as [[_ [short Hsh]] | [Hnot _]]; [|contradiction].
  assert (Hl : In last_value (map snd roi_df)).
  { unfold roi_df. rewrite map_app. apply in_or_app. right. left.
    reflexivity. }
  destruct (roi_data_max _ (map snd fcst_df) _ Hl) as [d [Hd [Hin Hub]]].
  destruct (roi_ymax_shape d) as [ymax [n [Hy [Hcase Hn]]]].
  exists short, d, ymax, n. split; [|repeat split; assumption].
  unfold Viz.make_roi_forecast. fold roi_df. rewrite Hsh. cbn [bind].
  assert (L1 : Py.last (map fst roi_df) = Ok last_period)
    by (unfold roi_df; rewrite map_app; apply py_last_snoc).
  assert (L2 : Py.last (map snd roi_df) = Ok last_value)
    by (unfold roi_df; rewrite map_app; apply py_last_snoc).
  rewrite L1, L2. cbn [bind]. rewrite Hd, Hy. cbn [bind].
  rewrite Hn, ticks_5000. reflexivity.
Qed.

(** [make_roi_forecast] stops with [IndexError] at a blank month label. *)
Lemma make_roi_forecast_blank (roi_df fcst_df : list (string * Q)) :
  ~ Forall (fun m => Py.blank m = false)
           (map fst roi_df ++ map fst fcst_df) ->
  Viz.make_roi_forecast roi_df fcst_df = Raise IndexError.
Proof.
  intro Hnot. unfold Viz.make_roi_forecast.
  destruct (short_labels_cases (map fst roi_df ++ map fst fcst_df))
    as [[Hall _] | [_ Hsh]]; [contradiction|].
  rewrite Hsh. reflexivity.
Qed.

(** C4, as the code has it.  For every non-empty actual series and
    non-empty forecast series of which no month label is blank, with [m] the
    greatest value of the two series together, the y axis of the ROI chart
    starts at 10000 and ends at [ymax], where [ymax] is 40000 when
    [m <= 40000] and [ceil(m / 5000) * 5000] otherwise; [ymax] is
    [10000 + 5000 * n] and the tick values are [10000, 15000, ...,
    10000 + 5000 * n], which are the multiples of 5000 from 10000 to [ymax]
    inclusive.  A data maximum of 35000 gives 40000, one of 52000 gives
    55000. *)
Theorem roi_axis (roi_df fcst_df : list (string * Q)) :
  roi_df <> [] ->
  fcst_df <> [] ->
  Forall (fun m => Py.blank m = false)
         (map fst roi_df ++ map fst fcst_df) ->
  exists (fig : Viz.roi_figure) (m : Q) (ymax : Z) (n : nat),
    Viz.make_roi_forecast roi_df fcst_df = Ok fig /\
    In m (map snd roi_df ++ map snd fcst_df) /\
    (forall x, In x (map snd roi_df ++ map snd fcst_df) -> x <= m) /\
    Viz.y_range (Viz.roi_yaxis fig) = (10000%Z, ymax) /\
    ((m <= 40000 /\ ymax = 40000%Z) \/
     (40000 < m /\ ymax = (Qceiling (m / 5000) * 5000)%Z)) /\
    ymax = (10000 + 5000 * Z.of_nat n)%Z /\
    Viz.y_tickvals (Viz.roi_yaxis fig) =
    map (fun k => (10000 + 5000 * Z.of_nat k)%Z) (seq 0 (S n)) /\
    (forall t : Z,
       In t (Viz.y_tickvals (Viz.roi_yaxis fig)) <->
       (10000 <= t <= ymax)%Z /\ (5000 | t)%Z) /\
    (m == 35000 -> ymax = 40000%Z) /\
    (m == 52000 -> ymax = 55000%Z).
Proof.
  intros Hroi _ Hlab.
  destruct (exists_last Hroi) as [roi_init [[last_period last_value] ->]].
  destruct (make_roi_forecast_snoc roi_init fcst_df last_period last_value
              Hlab)
    as [short [m [ymax [n [Hfig [Hin [Hub [Hcase Hn]]]]]]]].
  eexists; exists m, ymax, n.
  split; [exact Hfig|]. cbn [Viz.roi_yaxis Viz.y_range Viz.y_tickvals].
  repeat split; try assumption; try lia.
  - rewrite <- ticks_5000, <- Hn in H. apply range_In in H; lia.
  - rewrite <- ticks_5000, <- Hn in H. apply range_In in H; lia.
  - rewrite <- ticks_5000, <- Hn in H. apply range_In in H; [|lia].
    destruct H as [_ [q Hq]]. exists (q + 2)%Z. lia.
  - intros [[Hlo Hhi] [q Hq]]. rewrite <- ticks_5000, <- Hn.
    apply range_In; [lia|]. split; [lia|]. exists (q - 2)%Z. lia.
  - intro E. destruct Hcase as [[_ ->] | [Hlt _]]; [reflexivity|].
    rewrite E in Hlt. discriminate Hlt.
  - intro E. destruct Hcase as [[Hle _] | [_ ->]].
    + rewrite E in Hle. exfalso. apply Hle. reflexivity.
    + rewrite (Qceiling_comp (m / 5000) (52000 / 5000)).
      * reflexivity.
      * rewrite E. reflexivity.
Qed.

Lemma roi_axis_witness :
  exists (fig : Viz.roi_figure) (m : Q) (ymax : Z) (n : nat),
    Viz.make_roi_forecast
      [("Feb 2023", 52000); ("Mar 2023", 12000)]%string
      [("Apr 2023", 21000)]%string = Ok fig /\
    In m (map snd [("Feb 2023", 52000); ("Mar 2023", 12000)]%string
          ++ map snd [("Apr 2023", 21000)]%string) /\
    (forall x,
       In x (map snd [("Feb 2023", 52000); ("Mar 2023", 12000)]%string
             ++ map snd [("Apr 2023", 21000)]%string) -> x <= m) /\
    Viz.y_range (Viz.roi_yaxis fig) = (10000%Z, ymax) /\
    ((m <= 40000 /\ ymax = 40000%Z) \/
     (40000 < m /\ ymax = (Qceiling (m / 5000) * 5000)%Z)) /\
    ymax = (10000 + 5000 * Z.of_nat n)%Z /\
    Viz.y_tickvals (Viz.roi_yaxis fig) =
    map (fun k => (10000 + 5000 * Z.of_nat k)%Z) (seq 0 (S n)) /\
    (forall t : Z,
       In t (Viz.y_tickvals (Viz.roi_yaxis fig)) <->
       (10000 <= t <= ymax)%Z /\ (5000 | t)%Z) /\
    (m == 35000 -> ymax = 40000%Z) /\
    (m == 52000 -> ymax = 55000%Z).
Proof.
  apply (@roi_axis [("Feb 2023", 52000); ("Mar 2023", 12000)]%string
                   [("Apr 2023", 21000)]%string);
    try discriminate.
  repeat constructor.
Defined.

(** C4, as the spec words it, fails: a pair of non-empty series of which a
    month label is blank has no axis at all.  With the label [" "] in the
    actual series the tick texts cannot be derived and [make_roi_forecast]
    raises [IndexError]. *)
Lemma roi_axis_blank_label :
  Viz.make_roi_forecast
    [("Feb 2023", 24800); (" ", 12000)]%string
    [("Apr 2023", 21000)]%string = Raise IndexError /\
  ~ exists fig : Viz.roi_figure,
      Viz.make_roi_forecast
        [("Feb 2023", 24800); (" ", 12000)]%string
        [("Apr 2023", 21000)]%string = Ok fig.
Proof.
  split; [reflexivity|]. intros [fig H]. discriminate H.
Qed.

(** C5, as the code has it.  For every actual series that ends with the
    point [(last_period, last_value)] and every forecast series, no month
    label of either being blank, the forecast trace of the ROI chart is that
    point followed by the forecast points in order: it has one point more
    than the forecast and starts with the last actual point.  The actual
    trace is the actual series itself. *)
Theorem forecast_join (roi_init fcst_df : list (string * Q))
    (last_period : string) (last_value : Q) :
  Forall (fun m => Py.blank m = false)
         (map fst (roi_init ++ [(last_period, last_value)])
          ++ map fst fcst_df) ->
  exists fig : Viz.roi_figure,
    Viz.make_roi_forecast (roi_init ++ [(last_period, last_value)]) fcst_df
    = Ok fig /\
    Viz.fcst_x fig = last_period :: map fst fcst_df /\
    Viz.fcst_y fig = last_value :: map snd fcst_df /\
    combine (Viz.fcst_x fig) (Viz.fcst_y fig) =
    [(last_period, last_value)] ++ fcst_df /\
    List.length (combine (Viz.fcst_x fig) (Viz.fcst_y fig)) =
    (List.length fcst_df + 1)%nat /\
    hd_error (combine (Viz.fcst_x fig) (Viz.fcst_y fig)) =
    Some (last_period, last_value) /\
    combine (Viz.actual_x fig) (Viz.actual_y fig) =
    roi_init ++ [(last_period, last_value)].
Proof.
  intro Hlab.
  destruct (make_roi_forecast_snoc roi_init fcst_df last_period last_value
              Hlab)
    as [short [m [ymax [n [Hfig _]]]]].
  eexists. split; [exact Hfig|].
  cbn [Viz.fcst_x Viz.fcst_y Viz.actual_x Viz.actual_y].
  split; [reflexivity|]. split; [reflexivity|].
  cbn [combine]. rewrite !combine_fst_snd.
  repeat split. simpl. lia.
Qed.

Lemma forecast_join_witness :
  exists fig : Viz.roi_figure,
    Viz.make_roi_forecast
      ([("Feb 2023", 24800)]%string ++ [("Mar 2023"%string, 12000)])
      [("Apr 2023", 21000); ("May 2023", 22000)]%string
    = Ok fig /\
    Viz.fcst_x fig =
    "Mar 2023"%string
    :: map fst [("Apr 2023", 21000); ("May 2023", 22000)]%string /\
    Viz.fcst_y fig =
    12000 :: map snd [("Apr 2023", 21000); ("May 2023", 22000)]%string /\
    combine (Viz.fcst_x fig) (Viz.fcst_y fig) =
    [("Mar 2023"%string, 12000)]
    ++ [("Apr 2023", 21000); ("May 2023", 22000)]%string /\
    List.length (combine (Viz.fcst_x fig) (Viz.fcst_y fig)) =
    (List.length [("Apr 2023"%string, 21000%Q); ("May 2023"%string, 22000%Q)]
     + 1)%nat /\
    hd_error (combine (Viz.fcst_x fig) (Viz.fcst_y fig)) =
    Some ("Mar 2023"%string, 12000) /\
    combine (Viz.actual_x fig) (Viz.actual_y fig) =
    [("Feb 2023", 24800)]%string ++ [("Mar 2023"%string, 12000)].
Proof.
  apply (@forecast_join [("Feb 2023", 24800)]%string
                        [("Apr 2023", 21000); ("May 2023", 22000)]%string
                        "Mar 2023" 12000).
  repeat constructor.
Defined.

(** C5, as the spec words it, fails: with a blank month label there is no
    rendered forecast series.  With the label [" "] in the forecast series
    [make_roi_forecast] raises [IndexError] before the join. *)
Lemma forecast_join_blank_label :
  Viz.make_roi_forecast
    [("Mar 2023", 12000)]%string
    [(" ", 21000); ("May 2023", 22000)]%string = Raise IndexError /\
  ~ exists fig : Viz.roi_figure,
      Viz.make_roi_forecast
        [("Mar 2023", 12000)]%string
        [(" ", 21000); ("May 2023", 22000)]%string = Ok fig.
Proof.
  split; [reflexivity|]. intros [fig H]. discriminate H.
Qed.

(** ** Generator *)

Lemma read_write_same (name : string) (f : DataGen.file) (w : DataGen.world) :
  DataGen.read name (DataGen.write name f w) = Some f.
Proof.
  unfold DataGen.read, DataGen.write. simpl.
  rewrite String.eqb_refl. reflexivity.
Qed.

Lemma find_filter_other (name other : string)
    (fs : list (string * DataGen.file)) :
  String.eqb name other = false ->
  find (fun p => String.eqb (fst p) name)
       (filter (fun p => negb (String.eqb (fst p) other)) fs) =
  find (fun p => String.eqb (fst p) name) fs.
Proof.
  intro Hne. induction fs as [|[k v] fs IH]; [reflexivity|]. simpl.
  destruct (String.eqb k other) eqn:Eo; simpl.
  - apply String.eqb_eq in Eo. subst k.
    rewrite String.eqb_sym, Hne. exact IH.
  - destruct (String.eqb k name); [reflexivity | exact IH].
Qed.

Lemma read_write_other (name other : string) (f : DataGen.file)
    (w : DataGen.world) :
  String.eqb name other = false ->
  DataGen.read name (DataGen.write other f w) = DataGen.read name w.
Proof.
  intro Hne. unfold DataGen.read, DataGen.write. simpl.
  rewrite String.eqb_sym, Hne. rewrite find_filter_other by exact Hne.
  reflexivity.
Qed.

Lemma read_print (name line : string) (w : DataGen.world) :
  DataGen.read name (DataGen.print line w) = DataGen.read name w.
Proof. reflexivity. Qed.

Lemma np_random_seed_accepts (seed : Z) (w : DataGen.world) :
  (0 <= seed <= 2 ^ 32 - 1)%Z ->
  DataGen.np_random_seed seed w =
  (Ok tt, {| DataGen.rng_seed := Some seed;
             DataGen.files := DataGen.files w;
             DataGen.stdout := DataGen.stdout w |}).
Proof.
  intro H. unfold DataGen.np_random_seed.
  replace ((0 <=? seed) && (seed <=? 2 ^ 32 - 1))%Z%bool with true;
    [reflexivity|].
  symmetry. apply andb_true_iff. split; apply Z.leb_le; lia.
Qed.

Lemma np_random_seed_rejects (seed : Z) (w : DataGen.world) :
  (seed < 0 \/ 2 ^ 32 - 1 < seed)%Z ->
  DataGen.np_random_seed seed w = (Raise ValueError, w).
Proof.
  intro H. unfold DataGen.np_random_seed.
  replace ((0 <=? seed) && (seed <=? 2 ^ 32 - 1))%Z%bool with false;
    [reflexivity|].
  symmetry. apply andb_false_iff.
  destruct H; [left | right]; apply Z.leb_gt; lia.
Qed.

(** The monthly records: no key is missing, and there is one record per
    month and department. *)
Lemma records_monthly_data :
  exists rs : list (list DataGen.cell),
    DataGen.records DataGen.monthly_data = Ok rs /\
    List.length rs = 78%nat.
Proof.
  eexists. split; [vm_compute; reflexivity | reflexivity].
Qed.

(** The tables a completed run leaves, whatever the seed and whatever the
    directory held before. *)
Lemma main_tables (seed : Z) (w : DataGen.world) :
  (0 <= seed <= 2 ^ 32 - 1)%Z ->
  exists rs : list (list DataGen.cell),
    DataGen.records DataGen.monthly_data = Ok rs /\
    fst (DataGen.main seed w) = Ok tt /\
    DataGen.output_tables (snd (DataGen.main seed w)) =
    [ Some (DataGen.JsonObject DataGen.kpis);
      Some (DataGen.frame2 "Department" "Savings"
              DataGen.savings_departments DataGen.savings_values);
      Some (DataGen.Csv ["MonthYear"; "Department"; "Savings"]%string rs);
      Some (DataGen.frame2 "Month" "Procurement ROI"
              DataGen.roi_months DataGen.roi_values);
      Some (DataGen.frame2 "Month" "Forecast"
              DataGen.forecast_months DataGen.forecast_values) ].
Proof.
  intro Hs. destruct records_monthly_data as [rs [Hrs _]].
  exists rs. split; [exact Hrs|].
  unfold DataGen.main. rewrite np_random_seed_accepts by exact Hs.
  rewrite Hrs. split; [reflexivity|].
  unfold DataGen.output_tables. cbn [snd map].
  rewrite !read_print.
  repeat (rewrite read_write_same
          || rewrite read_write_other by reflexivity).
  reflexivity.
Qed.

(** C9, as the code has it.  For every pair of seeds that
    [np.random.seed] accepts, that is between 0 and 2**32 - 1, both runs
    complete and leave the same five tables, whatever the [data] directory
    held before either run; the tables are all written.  A seed outside that
    range makes the run raise [ValueError] at the seeding, with nothing
    written. *)
Theorem generator_seed_independence (s1 s2 : Z) (w1 w2 : DataGen.world) :
  (0 <= s1 <= 2 ^ 32 - 1)%Z ->
  (0 <= s2 <= 2 ^ 32 - 1)%Z ->
  fst (DataGen.main s1 w1) = Ok tt /\
  fst (DataGen.main s2 w2) = Ok tt /\
  DataGen.output_tables (snd (DataGen.main s1 w1)) =
  DataGen.output_tables (snd (DataGen.main s2 w2)) /\
  Forall (fun t => t <> None)
         (DataGen.output_tables (snd (DataGen.main s1 w1))) /\
  (forall (s : Z) (w : DataGen.world),
     (s < 0 \/ 2 ^ 32 - 1 < s)%Z ->
     DataGen.main s w = (Raise ValueError, w)).
Proof.
  intros H1 H2.
  destruct (main_tables w1 H1) as [rs1 [Hr1 [Hok1 Ht1]]].
  destruct (main_tables w2 H2) as [rs2 [Hr2 [Hok2 Ht2]]].
  assert (rs1 = rs2) by congruence. subst rs2.
  repeat split; try assumption.
  - rewrite Ht1, Ht2. reflexivity.
  - rewrite Ht1. repeat constructor; discriminate.
  - intros s w Hs. unfold DataGen.main.
    rewrite np_random_seed_rejects by exact Hs. reflexivity.
Qed.

Lemma generator_seed_independence_witness :
  fst (DataGen.main 42 DataGen.empty_world) = Ok tt /\
  fst (DataGen.main 7 DataGen.empty_world) = Ok tt /\
  DataGen.output_tables (snd (DataGen.main 42 DataGen.empty_world)) =
  DataGen.output_tables (snd (DataGen.main 7 DataGen.empty_world)) /\
  Forall (fun t => t <> None)
         (DataGen.output_tables (snd (DataGen.main 42 DataGen.empty_world))) /\
  (forall (s : Z) (w : DataGen.world),
     (s < 0 \/ 2 ^ 32 - 1 < s)%Z ->
     DataGen.main s w = (Raise ValueError, w)).
Proof.
  apply (@generator_seed_independence 42 7
           DataGen.empty_world DataGen.empty_world); simpl; lia.
Defined.

(** C9, as the spec words it, fails: the default seed 42 and the seed -1 do
    not leave the same tables in an empty [data] directory.  The run with
    seed -1 stops at [np.random.seed]. *)
Lemma generator_seed_matters :
  DataGen.output_tables (snd (DataGen.main 42 DataGen.empty_world)) <>
  DataGen.output_tables (snd (DataGen.main (-1) DataGen.empty_world)).
Proof. discriminate. Qed.


(** ** The generated tables through the renderer *)

(** The three KPIs of the generator: each previous value exists, and its
    integer part is the figure the dashboard is built from. *)
Example generated_kpis_previous :
  (exists p, Viz.back_calc_previous 10556 (-54.90) = Ok p /\
             Py.int p = 23405%Z) /\
  (exists p, Viz.back_calc_previous 6279 (-54.42) = Ok p /\
             Py.int p = 13775%Z) /\
  (exists p, Viz.back_calc_previous 16976 (-55.50) = Ok p /\
             Py.int p = 38148%Z).
Proof.
  repeat split; eexists; (split; [reflexivity|]); reflexivity.
Qed.

(** The monthly table of the generator: the greatest monthly total is 56414
    (July 2022), so the axis ends at the floor of 60000. *)
Example generated_monthly_axis :
  Viz.make_monthly_stacked
    (flat_map
       (fun md =>
          map (fun dv => {| Viz.MonthYear := fst md;
                            Viz.Department := fst dv;
                            Viz.Savings := Py.int (snd dv) |})
              (snd md))
       DataGen.monthly_data) =
  Ok {| Viz.y_range := (0, 60000)%Z;
        Viz.y_tickvals :=
          [0; 10000; 20000; 30000; 40000; 50000; 60000]%Z |}.
Proof. vm_compute. reflexivity. Qed.

(** The ROI tables of the generator: the greatest value is 37000, the axis
    runs from 10000 to 40000, and the forecast trace starts at the last
    actual point. *)
Example generated_roi_chart :
  exists fig : Viz.roi_figure,
    Viz.make_roi_forecast
      (combine DataGen.roi_months DataGen.roi_values)
      (combine DataGen.forecast_months DataGen.forecast_values) = Ok fig /\
    Viz.roi_yaxis fig =
    {| Viz.y_range := (10000, 40000)%Z;
       Viz.y_tickvals :=
         [10000; 15000; 20000; 25000; 30000; 35000; 40000]%Z |} /\
    hd_error (combine (Viz.fcst_x fig) (Viz.fcst_y fig)) =
    Some ("Mar 2023"%string, 12000) /\
    List.length (Viz.fcst_y fig) = 7%nat.
Proof.
  eexists. split; [vm_compute; reflexivity|]. repeat split.
Qed.

(** The tick texts of the ROI chart for the generator's tables: the first
    word of every month label. *)
Example generated_roi_ticktext :
  Viz.short_labels (DataGen.roi_months ++ DataGen.forecast_months) =
  Ok [ "Mar"; "Apr"; "May"; "Jun"; "Jul"; "Aug"; "Sep"; "Oct"; "Nov"; "Dec";
       "Jan"; "Feb"; "Mar"; "Apr"; "May"; "Jun"; "Jul"; "Aug";
       "Sep" ]%string.
Proof. vm_compute. reflexivity. Qed.

(** The hover text and the centre label of the first KPI donut. *)
Example generated_donut_text :
  Viz.donut_customdata
    (Viz.make_kpi_donut "Cost of Material" 10556 (-54.90)
                        (10556 / (1 + -54.90 / 100))) =
  [ "$10,556 current";
    "-$12,849<br>reduction vs<br>last month" ]%string /\
  Viz.donut_annotation
    (Viz.make_kpi_donut "Cost of Material" 10556 (-54.90)
                        (10556 / (1 + -54.90 / 100))) =
  "<b>$10,556</b>"%string.
Proof. split; vm_compute; reflexivity. Qed.


(** ** Binary64 evaluation next to the exact model *)

(** The examples of the formatters, on the floats of the literals. *)
Example binary64_formatters :
  Binary64.fmtd_signed (Binary64.lit (-12349) 10) = Ok "-$1,234"%string /\
  Binary64.fmtd_signed (Binary64.of_Z 0) = Ok "$0"%string /\
  Binary64.fmtd (Binary64.lit 12349 10) = Ok "$1,234"%string /\
  Binary64.fmtd_signed (Binary64.lit (-5) 10) = Ok "-$0"%string.
Proof. repeat split. Qed.

(** [100 * 0.05] is exactly [5.0] in binary64. *)
Example binary64_remainder :
  Binary64.remainder (Binary64.of_Z 100) (Binary64.of_Z 100) =
  Binary64.of_Z 5.
Proof. vm_compute. reflexivity. Qed.

(** The axis examples of the spec. *)
Example binary64_axes :
  Binary64.ceil_to_step 42000 10000 = Ok 50000%Z /\
  Binary64.stacked_ymax 42000 = Ok 60000%Z /\
  Binary64.stacked_ymax 5000 = Ok 60000%Z /\
  Binary64.roi_ymax 35000 = Ok 40000%Z /\
  Binary64.roi_ymax 52000 = Ok 55000%Z.
Proof. repeat split. Qed.

(** Around every multiple of 5000 up to a million, the axes computed in
    binary64 are those of the exact model. *)
Lemma binary64_axes_agree :
  forallb Binary64.axes_agree (Binary64.near_multiples 200) = true.
Proof. vm_compute. reflexivity. Qed.

(** The previous value of the first KPI: the float is within [1e-9] of the
    exact quotient, and [-100.0] takes the guarded branch. *)
Example binary64_back_calc :
  (exists f : Q,
     Binary64.to_Q
       (Binary64.back_calc_previous (Binary64.of_Z 10556)
                                    (Binary64.lit (-5490) 100)) = Some f /\
     Qabs (f - 10556 / (1 + -54.90 / 100)) < 1 # 1000000000) /\
  Binary64.back_calc_previous (Binary64.of_Z 10556) (Binary64.of_Z (-100)) =
  Binary64.of_Z 10556.
Proof.
  split; [|vm_compute; reflexivity].
  eexists. split; [vm_compute; reflexivity|]. vm_compute. reflexivity.
Qed.

(** ** Thousands separators *)

Lemma list_ind_by_3 (A : Type) (P : list A -> Prop) :
  P [] ->
  (forall a, P [a]) ->
  (forall a b, P [a; b]) ->
  (forall a b c, P [a; b; c]) ->
  (forall a b c rest, rest <> [] -> P rest -> P (a :: b :: c :: rest)) ->
  forall l, P l.
Proof.
  intros H0 H1 H2 H3 H4. fix IH 1. intro l.
  destruct l as [|a l1]; [exact H0|].
  destruct l1 as [|b l2]; [apply H1|].
  destruct l2 as [|c l3]; [apply H2|].
  destruct l3 as [|d rest] eqn:E; [apply H3|].
  rewrite <- E. apply H4; [rewrite E; discriminate | apply IH].
Qed.

Lemma group3_step (a b c : ascii) (rest : list ascii) :
  rest <> [] ->
  Py.group3 (a :: b :: c :: rest) =
  a :: b :: c :: ","%char :: Py.group3 rest.
Proof.
  destruct rest as [|d rest]; [congruence | reflexivity].
Qed.

(** Grouping only inserts separators: without them the digits are back. *)
Lemma group3_strip (ds : list ascii) :
  Forall (fun c => c <> ","%char) ds ->
  filter (fun c => negb (Ascii.eqb c ",")) (Py.group3 ds) = ds.
Proof.
  assert (K : forall c l, c <> ","%char ->
              filter (fun c => negb (Ascii.eqb c ",")) (c :: l) =
              c :: filter (fun c => negb (Ascii.eqb c ",")) l).
  { intros c l Hc. simpl. destruct (Ascii.eqb c ",") eqn:E;
      [apply Ascii.eqb_eq in E; contradiction | reflexivity]. }
  induction ds as [|a|a b|a b c|a b c rest Hne IH] using list_ind_by_3;
    intro H.
  - reflexivity.
  - inversion H; subst. simpl Py.group3. rewrite K by assumption.
    reflexivity.
  - inversion H as [|? ? Ha H']; subst. inversion H'; subst.
    simpl Py.group3. rewrite !K by assumption. reflexivity.
  - inversion H as [|? ? Ha H']; subst.
    inversion H' as [|? ? Hb H'']; subst. inversion H''; subst.
    simpl Py.group3. rewrite !K by assumption. reflexivity.
  - inversion H as [|? ? Ha H']; subst.
    inversion H' as [|? ? Hb H'']; subst.
    inversion H'' as [|? ? Hc H''']; subst.
    rewrite group3_step by assumption. rewrite !K by assumption.
    simpl. rewrite IH by assumption. reflexivity.
Qed.

(** One separator for every full group of three digits below the leading
    group. *)
Lemma group3_length (ds : list ascii) :
  List.length (Py.group3 ds) =
  (List.length ds + (List.length ds - 1) / 3)%nat.
Proof.
  induction ds as [|a|a b|a b c|a b c rest Hne IH] using list_ind_by_3;
    try reflexivity.
  rewrite group3_step by assumption. cbn [List.length]. rewrite IH.
  destruct rest as [|d rest]; [congruence|]. cbn [List.length].
  replace (S (S (S (S (List.length rest)))) - 1)%nat
    with (S (List.length rest) - 1 + 1 * 3)%nat by lia.
  rewrite Nat.div_add by discriminate. lia.
Qed.

(** The digits of a number hold no separator. *)
Lemma digits_no_comma (n : N) :
  Forall (fun c => c <> ","%char) (Py.digits n).
Proof.
  unfold Py.digits. generalize (N.to_uint n). intro u.
  destruct u as [|u|u|u|u|u|u|u|u|u|u];
    try (simpl; repeat constructor; discriminate);
    simpl NilZero.string_of_uint; cbn [list_ascii_of_string];
    (constructor; [discriminate|]);
    induction u; cbn [NilEmpty.string_of_uint list_ascii_of_string];
    constructor; (discriminate || assumption).
Qed.

(** [format_comma] of a number that is not negative: the decimal digits of
    the number, with separators only in addition. *)
Lemma format_comma_digits (n : Z) :
  (0 <= n)%Z ->
  filter (fun c => negb (Ascii.eqb c ","))
         (list_ascii_of_string (Py.format_comma n)) =
  Py.digits (Z.to_N n).
Proof.
  intro Hn. unfold Py.format_comma.
  replace (n <? 0)%Z with false by (symmetry; apply Z.ltb_ge; exact Hn).
  cbn [String.append]. rewrite list_ascii_of_string_of_list_ascii.
  replace (Z.abs_N n) with (Z.to_N n) by lia.
  set (ds := Py.digits (Z.to_N n)).
  assert (F : Forall (fun c => c <> ","%char) (rev ds)).
  { apply Forall_forall. intros c Hc. apply in_rev in Hc.
    revert c Hc. apply Forall_forall, digits_no_comma. }
  assert (R : forall l : list ascii,
            filter (fun c => negb (Ascii.eqb c ",")) (rev l) =
            rev (filter (fun c => negb (Ascii.eqb c ",")) l)).
  { induction l as [|x l IHl]; [reflexivity|]. simpl.
    rewrite filter_app, IHl. simpl.
    destruct (negb (Ascii.eqb x ",")); simpl;
      [reflexivity | apply app_nil_r]. }
  rewrite R, (group3_strip F). apply rev_involutive.
Qed.


(** * Further properties of the code *)

(** ** Direction of the back-calculation *)

(** X2. For a positive [current]: a fall of less than 100 percent gives a
    previous value that is not below [current], a rise gives one between 0
    and [current], no change or a change of -100 percent gives [current]
    itself, and a change below -100 percent gives a previous value that is
    not positive. *)
Theorem back_calc_previous_direction (current pct_change : Q) :
  0 < current ->
  exists previous : Q,
    Viz.back_calc_previous current pct_change = Ok previous /\
    ((pct_change < -100 /\ previous <= 0) \/
     (pct_change == -100 /\ previous = current) \/
     (-100 < pct_change /\ pct_change < 0 /\ current <= previous) \/
     (pct_change == 0 /\ previous == current) \/
     (0 < pct_change /\ 0 <= previous /\ previous <= current)).
Proof.
  intro Hc. rewrite back_calc_previous_spec.
  destruct (Qeq_bool pct_change (-100)) eqn:E.
  - apply Qeq_bool_iff in E. exists current. split; [reflexivity|].
    right. left. split; [exact E | reflexivity].
  - apply Qeq_bool_neq in E.
    set (denom := 1 + pct_change / 100).
    assert (Hd : denom == 1 + pct_change * (1 # 100)) by reflexivity.
    assert (Hn : ~ denom == 0)
      by (intro H; apply E; rewrite Hd in H; lra).
    assert (Hp : current / denom * denom == current) by (field; exact Hn).
    exists (current / denom). split; [reflexivity|].
    set (previous := current / denom) in *.
    clearbody previous. clearbody denom.
    destruct (Qlt_le_dec pct_change (-100)) as [L1 | L1].
    { left. split; [exact L1|].
      assert (denom < 0) by (rewrite Hd; lra). nra. }
    right. right.
    destruct (Qlt_le_dec pct_change 0) as [L2 | L2].
    { left. split; [|split; [exact L2|]].
      - destruct (Qle_lt_or_eq _ _ L1) as [K | K]; [exact K|].
        exfalso. apply E. symmetry. exact K.
      - assert (0 < denom).
        { rewrite Hd.
          destruct (Qle_lt_or_eq _ _ L1) as [K | K]; [lra|].
          exfalso. apply E. symmetry. exact K. }
        assert (denom < 1) by (rewrite Hd; lra). nra. }
    right.
    destruct (Qle_lt_or_eq _ _ L2) as [K | K].
    { right. split; [exact K|].
      assert (1 < denom) by (rewrite Hd; lra). split; nra. }
    left. split; [symmetry; exact K|].
    assert (H1 : denom == 1) by (rewrite Hd; lra).
    rewrite H1 in Hp. lra.
Qed.

Lemma back_calc_previous_direction_witness :
  exists previous : Q,
    Viz.back_calc_previous 16976 25 = Ok previous /\
    ((25 < -100 /\ previous <= 0) \/
     (25 == -100 /\ previous = 16976) \/
     (-100 < 25 /\ 25 < 0 /\ 16976 <= previous) \/
     (25 == 0 /\ previous == 16976) \/
     (0 < 25 /\ 0 <= previous /\ previous <= 16976)).
Proof.
  apply (@back_calc_previous_direction 16976 25). reflexivity.
Defined.

(** ** The two formatters against each other *)

Lemma py_int_opp (val : Q) : Py.int (- val) = (- Py.int val)%Z.
Proof.
  destruct val as [n d]. unfold Py.int. simpl.
  apply Z.quot_opp_l. discriminate.
Qed.

Lemma py_int_nonneg (val : Q) : 0 <= val -> (0 <= Py.int val)%Z.
Proof.
  intro H. rewrite py_int_toward_zero.
  rewrite (proj2 (py_lt_false_iff val 0) H).
  destruct val as [n d]. unfold Qle in H. simpl in H.
  unfold Qfloor. apply Z.div_pos; lia.
Qed.

Lemma format_comma_opp (n : Z) :
  (0 < n)%Z ->
  Py.format_comma (- n) = ("-" ++ Py.format_comma n)%string.
Proof.
  intro H. unfold Py.format_comma.
  replace (- n <? 0)%Z with true by (symmetry; apply Z.ltb_lt; lia).
  replace (n <? 0)%Z with false by (symmetry; apply Z.ltb_ge; lia).
  replace (Z.abs_N (- n)) with (Z.abs_N n) by lia. reflexivity.
Qed.

(** X3. On a value that is not negative the two formatters agree; on a
    negative one [fmtd_signed] is a minus sign in front of [fmtd] of the
    opposite value. *)
Theorem fmtd_signed_via_fmtd (val : Q) :
  (0 <= val -> Viz.fmtd_signed val = Viz.fmtd val) /\
  (val < 0 -> Viz.fmtd_signed val = ("-" ++ Viz.fmtd (- val))%string).
Proof.
  split; intro H.
  - unfold Viz.fmtd_signed, Viz.fmtd.
    rewrite (proj2 (py_lt_false_iff val 0) H).
    rewrite Z.abs_eq by (apply py_int_nonneg; exact H). reflexivity.
  - unfold Viz.fmtd_signed, Viz.fmtd.
    rewrite (proj2 (py_lt_iff val 0) H).
    assert (Hn : (0 <= Py.int (- val))%Z) by (apply py_int_nonneg; lra).
    rewrite py_int_opp in *.
    rewrite Z.abs_neq by lia. reflexivity.
Qed.

(** X4. [fmtd] of a negative value: from -1 downwards the minus sign comes
    after the dollar sign, in front of the integer part of the magnitude;
    above -1 the result is ["$0"], with no sign at all. *)
Theorem fmtd_negative (val : Q) :
  val < 0 ->
  (val <= -1 /\
   Viz.fmtd val =
   ("$-" ++ Py.format_comma (Qfloor (Qabs val)))%string) \/
  (-1 < val /\ Viz.fmtd val = "$0"%string).
Proof.
  intro H. unfold Viz.fmtd.
  assert (Habs : Z.abs (Py.int val) = Qfloor (Qabs val))
    by apply py_int_abs.
  assert (Hn : (0 <= Py.int (- val))%Z) by (apply py_int_nonneg; lra).
  rewrite py_int_opp in Hn.
  destruct (Qlt_le_dec (-1) val) as [Hs | Hs].
  - right. split; [exact Hs|].
    assert (Hz : Qfloor (Qabs val) = 0%Z).
    { apply qfloor_small; [apply Qabs_nonneg|].
      rewrite Qabs_neg by lra. lra. }
    replace (Py.int val) with 0%Z by lia. reflexivity.
  - left. split; [exact Hs|].
    assert (Hpos : (0 < Qfloor (Qabs val))%Z).
    { assert (Hf : (Qfloor 1 <= Qfloor (Qabs val))%Z).
      { apply Qfloor_resp_le. rewrite Qabs_neg by lra. lra. }
      change (Qfloor 1) with 1%Z in Hf. lia. }
    replace (Py.int val) with (- Qfloor (Qabs val))%Z by lia.
    rewrite format_comma_opp by exact Hpos. reflexivity.
Qed.

Lemma fmtd_negative_witness :
  (-1234.9 <= -1 /\
   Viz.fmtd (-1234.9) =
   ("$-" ++ Py.format_comma (Qfloor (Qabs (-1234.9))))%string) \/
  (-1 < -1234.9 /\ Viz.fmtd (-1234.9) = "$0"%string).
Proof.
  apply (@fmtd_negative (-1234.9)). reflexivity.
Defined.

(** X5. [fmtd] of a value that is not negative: without its separators the
    text is the dollar sign and the decimal digits of the integer part, and
    there is one separator for every three digits after the leading
    group. *)
Theorem fmtd_separators (val : Q) :
  0 <= val ->
  filter (fun c => negb (Ascii.eqb c ","))
         (list_ascii_of_string (Viz.fmtd val)) =
  "$"%char :: Py.digits (Z.to_N (Qfloor val)) /\
  String.length (Viz.fmtd val) =
  (1 + List.length (Py.digits (Z.to_N (Qfloor val)))
     + (List.length (Py.digits (Z.to_N (Qfloor val))) - 1) / 3)%nat.
Proof.
  intro H. unfold Viz.fmtd.
  rewrite py_int_toward_zero, (proj2 (py_lt_false_iff val 0) H).
  assert (Hf : (0 <= Qfloor val)%Z).
  { change 0%Z with (Qfloor 0). apply Qfloor_resp_le. exact H. }
  split.
  - cbn [String.append list_ascii_of_string filter Ascii.eqb].
    change (negb (Ascii.eqb "$" ",")) with true. cbv iota.
    rewrite format_comma_digits by exact Hf. reflexivity.
  - cbn [String.append String.length]. f_equal.
    unfold Py.format_comma.
    replace (Qfloor val <? 0)%Z with false
      by (symmetry; apply Z.ltb_ge; exact Hf).
    cbn [String.append].
    replace (Z.abs_N (Qfloor val)) with (Z.to_N (Qfloor val)) by lia.
    assert (L : forall l : list ascii,
              String.length (string_of_list_ascii l) = List.length l).
    { induction l as [|x l IHl]; simpl; [reflexivity | now rewrite IHl]. }
    rewrite L, length_rev, group3_length, length_rev. reflexivity.
Qed.

Lemma fmtd_separators_witness :
  filter (fun c => negb (Ascii.eqb c ","))
         (list_ascii_of_string (Viz.fmtd 1234567.8)) =
  "$"%char :: Py.digits (Z.to_N (Qfloor 1234567.8)) /\
  String.length (Viz.fmtd 1234567.8) =
  (1 + List.length (Py.digits (Z.to_N (Qfloor 1234567.8)))
     + (List.length (Py.digits (Z.to_N (Qfloor 1234567.8))) - 1) / 3)%nat.
Proof.
  apply (@fmtd_separators 1234567.8). discriminate.
Defined.

(** ** The donut and its hover text *)


Lemma donut_hover_lines (title : string) (current pct_change prev : Q) :
  Viz.donut_customdata (Viz.make_kpi_donut title current pct_change prev) =
  [ (Viz.fmtd current ++ " current")%string;
    (Viz.fmtd_signed (current - prev) ++ "<br>" ++
     (if Py.lt (current - prev) 0 then "reduction" else "increase") ++
     " vs<br>last month")%string ].
Proof. reflexivity. Qed.

Lemma qabs_zero (x : Q) : Qabs x == 0 <-> x == 0.
Proof.
  split; intro H.
  - destruct (Qlt_le_dec x 0) as [Hx | Hx].
    + rewrite Qabs_neg in H by lra. lra.
    + rewrite Qabs_pos in H by exact Hx. exact H.
  - rewrite H. reflexivity.
Qed.

(** X7. The donut of a KPI whose previous value was back-calculated, as
    [create_dashboard] builds it, when [current] is zero or the change is 0
    or -100 percent: the previous value equals [current], so the second
    slice is the substitute [max(current * 0.05, 1)] and the hover text
    reports an increase of ["$0"].  A KPI that fell by 100 percent is thus
    drawn as one that did not change. *)
Theorem donut_of_back_calc (title : string) (current pct_change prev : Q) :
  Viz.back_calc_previous current pct_change = Ok prev ->
  current == 0 \/ pct_change == 0 \/ pct_change == -100 ->
  prev == current /\
  exists remainder : Q,
    Viz.donut_values (Viz.make_kpi_donut title current pct_change prev) =
    [current; remainder] /\
    remainder == Qmax (current * 0.05) 1 /\
    Viz.donut_customdata
      (Viz.make_kpi_donut title current pct_change prev) =
    [ (Viz.fmtd current ++ " current")%string;
      "$0<br>increase vs<br>last month"%string ].
Proof.
  intros H Hcase. rewrite back_calc_previous_spec in H. injection H as H.
  assert (Hp : prev == current).
  { destruct (Qeq_bool pct_change (-100)) eqn:E.
    - subst prev. reflexivity.
    - apply Qeq_bool_neq in E.
      assert (Hs : ~ 100 + pct_change == 0) by (intro K; apply E; lra).
      subst prev. destruct Hcase as [K | [K | K]]; [| |contradiction].
      + rewrite K. field. exact Hs.
      + rewrite K. field. }
  split; [exact Hp|].
  assert (Hz : prev - current == 0) by (rewrite Hp; ring).
  assert (Hz' : current - prev == 0) by (rewrite Hp; ring).
  rewrite donut_values_unfold. eexists. split; [reflexivity|].
  assert (Ha : Qabs (prev - current) == 0)
    by (apply (proj2 (qabs_zero _)); exact Hz).
  rewrite (Qeq_eq_bool _ _ Ha). split; [apply max2_Qmax|].
  rewrite donut_hover_lines, fmtd_signed_unfold.
  assert (Hl : Py.lt (current - prev) 0 = false)
    by (apply py_lt_false_iff; rewrite Hz'; apply Qle_refl).
  rewrite Hl.
  assert (Hf : Qfloor (Qabs (current - prev)) = 0%Z).
  { rewrite (Qfloor_comp (Qabs (current - prev)) 0); [reflexivity|].
    apply (proj2 (qabs_zero _)). exact Hz'. }
  rewrite Hf. reflexivity.
Qed.

Lemma donut_of_back_calc_witness :
  16976 == 16976 /\
  exists remainder : Q,
    Viz.donut_values (Viz.make_kpi_donut "Savings" 16976 (-100) 16976) =
    [16976; remainder] /\
    remainder == Qmax (16976 * 0.05) 1 /\
    Viz.donut_customdata
      (Viz.make_kpi_donut "Savings" 16976 (-100) 16976) =
    [ (Viz.fmtd 16976 ++ " current")%string;
      "$0<br>increase vs<br>last month"%string ].
Proof.
  apply (@donut_of_back_calc "Savings" 16976 (-100) 16976).
  - reflexivity.
  - right. right. reflexivity.
Defined.

(** ** Lookups by key *)

Lemma getitem_in (A : Type) (d : list (string * A)) (key : string) :
  In key (map fst d) ->
  exists v : A, DataGen.getitem d key = Ok v /\ In (key, v) d.
Proof.
  unfold DataGen.getitem. induction d as [|[k v] d IH]; [intros []|].
  intro H. simpl. destruct (String.eqb k key) eqn:E.
  - apply String.eqb_eq in E. subst k. exists v.
    split; [reflexivity | left; reflexivity].
  - destruct H as [H | H].
    + simpl in H. subst k. rewrite String.eqb_refl in E. discriminate.
    + destruct (IH H) as [v' [Hv Hin]]. exists v'.
      split; [exact Hv | right; exact Hin].
Qed.

Lemma getitem_not_in (A : Type) (d : list (string * A)) (key : string) :
  ~ In key (map fst d) -> DataGen.getitem d key = Raise KeyError.
Proof.
  unfold DataGen.getitem. induction d as [|[k v] d IH]; [reflexivity|].
  intro H. simpl. destruct (String.eqb k key) eqn:E.
  - apply String.eqb_eq in E. subst k. exfalso. apply H. left. reflexivity.
  - apply IH. intro K. apply H. right. exact K.
Qed.

(** ** The KPI part of the dashboard *)

(** X8. The KPI part of [create_dashboard] needs the six keys of the KPI
    series and nothing else.  With all six present it returns the three
    donuts, titled in the fixed order and carrying the three current values;
    the back-calculation never makes it fail.  With any of them missing it
    raises [KeyError]. *)
Theorem kpi_figs_keys (kpi_s : list (string * Q)) :
  (Forall (fun k => In k (map fst kpi_s))
     [ "cost_of_material"; "pct_change_material"; "cost_of_avoidance";
       "pct_change_avoidance"; "savings"; "pct_change_savings" ]%string /\
   exists (figs : list Viz.donut_figure) (cm ca cs : Q),
     VizRest.create_dashboard_kpi_figs kpi_s = Ok figs /\
     DataGen.getitem kpi_s "cost_of_material" = Ok cm /\
     DataGen.getitem kpi_s "cost_of_avoidance" = Ok ca /\
     DataGen.getitem kpi_s "savings" = Ok cs /\
     map Viz.donut_title figs =
     [ "<b>Cost of Material</b>"; "<b>Cost of Avoidance</b>";
       "<b>Savings</b>" ]%string /\
     map (fun f => hd_error (Viz.donut_values f)) figs =
     [Some cm; Some ca; Some cs]) \/
  (~ Forall (fun k => In k (map fst kpi_s))
       [ "cost_of_material"; "pct_change_material"; "cost_of_avoidance";
         "pct_change_avoidance"; "savings"; "pct_change_savings" ]%string /\
   VizRest.create_dashboard_kpi_figs kpi_s = Raise KeyError).
Proof.
  unfold VizRest.create_dashboard_kpi_figs.
  repeat
    (match goal with
     | |- context [bind (DataGen.getitem kpi_s ?k) _] =>
         let Hi := fresh "Hi" in
         let Hn := fresh "Hn" in
         destruct (in_dec string_dec k (map fst kpi_s)) as [Hi | Hn];
         [ let v := fresh "v" in
           let Hv := fresh "Hv" in
           destruct (getitem_in _ _ Hi) as [v [Hv _]];
           rewrite Hv; cbn [bind];
           try rewrite back_calc_previous_spec; cbn [bind]
         | right; split;
           [ intro F; apply Hn;
             rewrite Forall_forall in F; apply F; simpl; tauto
           | rewrite (getitem_not_in _ _ Hn); reflexivity ] ]
     end).
  left. split; [repeat constructor; assumption|].
  eexists; exists v, v1, v3.
  split; [reflexivity|].
  repeat split; assumption || reflexivity.
Qed.

(** ** Monthly totals *)

Lemma monthly_totals_group (df : list Viz.monthly_row) :
  Viz.monthly_totals df = VizRest.group_totals Viz.order df.
Proof. reflexivity. Qed.

Lemma existsb_eqb_In (x : string) (l : list string) :
  existsb (String.eqb x) l = true <-> In x l.
Proof.
  rewrite existsb_exists. split.
  - intros [y [Hy E]]. apply String.eqb_eq in E. subst y. exact Hy.
  - intro H. exists x. split; [exact H | apply String.eqb_refl].
Qed.

Lemma filter_nil_iff (A : Type) (p : A -> bool) (l : list A) :
  filter p l = [] <-> forall x, In x l -> p x = false.
Proof.
  induction l as [|a l IH]; simpl.
  - split; [intros _ x [] | reflexivity].
  - destruct (p a) eqn:E.
    + split; [discriminate|]. intro H.
      specialize (H a (or_introl eq_refl)). congruence.
    + rewrite IH. split.
      * intros H x [<- | Hx]; [exact E | apply H, Hx].
      * intros H x Hx. apply H. right. exact Hx.
Qed.

(** No total at all exactly when no row has one of the categories. *)
Lemma group_totals_nil (categories : list string)
    (df : list Viz.monthly_row) :
  VizRest.group_totals categories df = [] <->
  forall r, In r df -> ~ In (Viz.MonthYear r) categories.
Proof.
  unfold VizRest.group_totals.
  induction categories as [|m ms IH]; simpl.
  - split; [intros _ r _ [] | reflexivity].
  - split.
    + intro H. apply app_eq_nil in H. destruct H as [H1 H2].
      assert (F : filter (fun r => String.eqb (Viz.MonthYear r) m) df = []).
      { destruct (filter (fun r => String.eqb (Viz.MonthYear r) m) df);
          [reflexivity | discriminate]. }
      intros r Hr [E | Hin].
      * rewrite filter_nil_iff in F. specialize (F r Hr).
        subst m. rewrite String.eqb_refl in F. discriminate.
      * exact (proj1 IH H2 r Hr Hin).
    + intro H.
      assert (F : filter (fun r => String.eqb (Viz.MonthYear r) m) df = []).
      { apply filter_nil_iff. intros r Hr.
        destruct (String.eqb (Viz.MonthYear r) m) eqn:E; [|reflexivity].
        apply String.eqb_eq in E. exfalso. apply (H r Hr). left.
        symmetry. exact E. }
      rewrite F. simpl. apply IH. intros r Hr Hin.
      apply (H r Hr). right. exact Hin.
Qed.

(** X9. [make_monthly_stacked] fails exactly on a frame without any row of
    a known month (the empty frame among them): it then raises
    [ValueError], from the conversion of a NaN maximum.  With at least one
    row of a known month it returns the axis. *)
Theorem make_monthly_stacked_errors (df : list Viz.monthly_row) :
  ((forall r, In r df -> ~ In (Viz.MonthYear r) Viz.order) /\
   Viz.make_monthly_stacked df = Raise ValueError) \/
  ((exists r, In r df /\ In (Viz.MonthYear r) Viz.order) /\
   exists axis : Viz.yaxis, Viz.make_monthly_stacked df = Ok axis).
Proof.
  unfold Viz.make_monthly_stacked, Viz.monthly_stacked_yaxis.
  rewrite monthly_totals_group.
  destruct (VizRest.group_totals Viz.order df) as [|t ts] eqn:E.
  - left. split; [apply group_totals_nil, E | reflexivity].
  - right. split.
    + destruct (Exists_dec (fun r => In (Viz.MonthYear r) Viz.order) df)
        as [Hex | Hno].
      * intro r. apply in_dec, string_dec.
      * apply Exists_exists in Hex. exact Hex.
      * exfalso.
        assert (N : VizRest.group_totals Viz.order df = []).
        { apply group_totals_nil. intros r Hr Hin. apply Hno.
          apply Exists_exists. exists r. split; assumption. }
        congruence.
    + destruct (@series_max_nonempty (t :: ts)) as [m Hm]; [discriminate|].
      rewrite Hm. cbn [bind]. eexists. reflexivity.
Qed.

Lemma filter_filter_implies (A : Type) (p q : A -> bool) (l : list A) :
  (forall x, p x = true -> q x = true) ->
  filter p (filter q l) = filter p l.
Proof.
  intro H. induction l as [|a l IH]; [reflexivity|]. simpl.
  destruct (q a) eqn:Eq; simpl.
  - destruct (p a); [rewrite IH|]; auto.
  - destruct (p a) eqn:Ep; [|exact IH].
    apply H in Ep. congruence.
Qed.

Lemma group_totals_filter (categories : list string) (q : Viz.monthly_row -> bool)
    (df : list Viz.monthly_row) :
  (forall r, In (Viz.MonthYear r) categories -> q r = true) ->
  VizRest.group_totals categories (filter q df) =
  VizRest.group_totals categories df.
Proof.
  unfold VizRest.group_totals.
  induction categories as [|m ms IH]; intro H; [reflexivity|].
  cbn [flat_map]. rewrite IH.
  - rewrite filter_filter_implies; [reflexivity|].
    intros r E. apply String.eqb_eq in E. apply H. left.
    symmetry. exact E.
  - intros r Hr. apply H. right. exact Hr.
Qed.

(** X10. Rows whose month is not one of the thirteen of [order] have no
    effect on the monthly totals, and so none on the y axis that
    [make_monthly_stacked] derives (its range and its tick values),
    wherever they stand in the frame.  This is about the axis only: the bar
    traces are not part of the embedding. *)
Theorem make_monthly_stacked_ignores_unknown (df : list Viz.monthly_row) :
  Viz.monthly_totals df =
  Viz.monthly_totals (filter VizRest.known_month df) /\
  Viz.make_monthly_stacked df =
  Viz.make_monthly_stacked (filter VizRest.known_month df).
Proof.
  assert (E : Viz.monthly_totals df =
              Viz.monthly_totals (filter VizRest.known_month df)).
  { rewrite !monthly_totals_group. symmetry.
    apply group_totals_filter. intros r Hr.
    apply existsb_eqb_In. exact Hr. }
  split; [exact E|]. unfold Viz.make_monthly_stacked. rewrite <- E.
  reflexivity.
Qed.

Lemma ceil_step_covers (m : Q) (step : Z) :
  (0 < step)%Z ->
  m <= inject_Z (Qceiling (m / inject_Z step) * step).
Proof.
  intro Hs. rewrite inject_Z_mult.
  assert (Hq : 0 < inject_Z step)
    by (change 0 with (inject_Z 0); rewrite <- Zlt_Qlt; exact Hs).
  pose proof (Qle_ceiling (m / inject_Z step)) as Hc.
  apply Qle_trans with (m / inject_Z step * inject_Z step).
  - apply Qle_lteq. right. field. lra.
  - apply Qmult_le_compat_r; [exact Hc | lra].
Qed.

(** X11. Whenever [make_monthly_stacked] returns, the axis starts at 0 and
    every monthly total, the int64 sum that the grouping computes, is at
    most its upper end, which is itself the last tick. *)
Theorem monthly_stacked_axis_covers (df : list Viz.monthly_row)
    (axis : Viz.yaxis) :
  Viz.make_monthly_stacked df = Ok axis ->
  fst (Viz.y_range axis) = 0%Z /\
  (forall t, In t (Viz.monthly_totals df) ->
             t <= inject_Z (snd (Viz.y_range axis))) /\
  List.last (Viz.y_tickvals axis) 0%Z = snd (Viz.y_range axis).
Proof.
  unfold Viz.make_monthly_stacked, Viz.monthly_stacked_yaxis.
  destruct (Viz.series_max (Viz.monthly_totals df)) as [m|] eqn:Hm;
    [|discriminate].
  cbn [bind fst snd]. intro H. injection H as <-.
  cbn [Viz.y_range Viz.y_tickvals fst snd].
  destruct (series_max_spec _ Hm) as [_ Hub].
  split; [reflexivity|]. split.
  - intros t Ht. apply Qle_trans with m; [apply Hub, Ht|].
    apply Qle_trans with (inject_Z (Py.ceil (m / 10000) * 10000)).
    + apply (@ceil_step_covers m 10000). reflexivity.
    + rewrite <- Zle_Qle. apply Z.le_max_l.
  - rewrite ceil_step_multiple, ticks_10000.
    set (n := Z.to_nat (Z.max (Py.ceil (m / 10000)) 6)).
    rewrite seq_S, map_app. cbn [map]. rewrite last_last.
    reflexivity.
Qed.

Lemma monthly_stacked_axis_covers_witness :
  fst (Viz.y_range {| Viz.y_range := (0, 60000)%Z;
                      Viz.y_tickvals :=
                        [0; 10000; 20000; 30000; 40000; 50000; 60000]%Z |})
  = 0%Z /\
  (forall t,
     In t (Viz.monthly_totals
             [ {| Viz.MonthYear := "Mar 2022"; Viz.Department := "Other";
                  Viz.Savings := 3468 |};
               {| Viz.MonthYear := "Mar 2022"; Viz.Department := "Machine";
                  Viz.Savings := 6205 |} ]%string) ->
     t <= inject_Z
            (snd (Viz.y_range
                    {| Viz.y_range := (0, 60000)%Z;
                       Viz.y_tickvals :=
                         [0; 10000; 20000; 30000; 40000; 50000;
                          60000]%Z |}))) /\
  List.last
    (Viz.y_tickvals {| Viz.y_range := (0, 60000)%Z;
                       Viz.y_tickvals :=
                         [0; 10000; 20000; 30000; 40000; 50000; 60000]%Z |})
    0%Z =
  snd (Viz.y_range {| Viz.y_range := (0, 60000)%Z;
                      Viz.y_tickvals :=
                        [0; 10000; 20000; 30000; 40000; 50000; 60000]%Z |}).
Proof.
  apply (@monthly_stacked_axis_covers
           [ {| Viz.MonthYear := "Mar 2022"; Viz.Department := "Other";
                Viz.Savings := 3468 |};
             {| Viz.MonthYear := "Mar 2022"; Viz.Department := "Machine";
                Viz.Savings := 6205 |} ]%string).
  reflexivity.
Defined.

(** ** Total savings pie *)

Lemma colors_of_known (departments : list string) :
  Forall (fun d => In d (map fst VizRest.DEPT_COLORS)) departments ->
  exists colors : list string,
    VizRest.colors_of departments = Ok colors /\
    List.length colors = List.length departments /\
    Forall (fun dc => In dc VizRest.DEPT_COLORS)
           (combine departments colors).
Proof.
  induction departments as [|d ds IH]; intro H.
  - exists []. repeat split; constructor.
  - inversion H as [|? ? Hd Hds]; subst.
    destruct (getitem_in _ _ Hd) as [c [Hc Hin]].
    destruct (IH Hds) as [cs [Hcs [Hlen Hall]]].
    exists (c :: cs). cbn [VizRest.colors_of]. rewrite Hc. cbn [bind].
    rewrite Hcs. cbn [bind]. repeat split.
    + simpl. rewrite Hlen. reflexivity.
    + constructor; assumption.
Qed.

Lemma colors_of_unknown (departments : list string) :
  ~ Forall (fun d => In d (map fst VizRest.DEPT_COLORS)) departments ->
  VizRest.colors_of departments = Raise KeyError.
Proof.
  induction departments as [|d ds IH]; intro H.
  - exfalso. apply H. constructor.
  - cbn [VizRest.colors_of].
    destruct (in_dec string_dec d (map fst VizRest.DEPT_COLORS))
      as [Hd | Hd].
    + destruct (getitem_in _ _ Hd) as [c [Hc _]]. rewrite Hc. cbn [bind].
      rewrite IH; [reflexivity|].
      intro F. apply H. constructor; assumption.
    + rewrite (getitem_not_in _ _ Hd). reflexivity.
Qed.

(** X13. [make_totals_pie] accepts exactly the frames whose departments
    are all among the six of the colour table.  It then keeps the rows in
    file order as labels and values and gives every slice the colour of its
    department; the empty frame gives an empty pie.  A frame with any other
    department raises [KeyError]. *)
Theorem make_totals_pie_departments (totals_df : list (string * Q)) :
  (Forall (fun d => In d (map fst VizRest.DEPT_COLORS))
          (map fst totals_df) /\
   exists fig : VizRest.pie_figure,
     VizRest.make_totals_pie totals_df = Ok fig /\
     combine (VizRest.pie_labels fig) (VizRest.pie_values fig) = totals_df /\
     List.length (VizRest.pie_colors fig) = List.length totals_df /\
     Forall (fun dc => In dc VizRest.DEPT_COLORS)
            (combine (VizRest.pie_labels fig) (VizRest.pie_colors fig))) \/
  (~ Forall (fun d => In d (map fst VizRest.DEPT_COLORS))
            (map fst totals_df) /\
   VizRest.make_totals_pie totals_df = Raise KeyError).
Proof.
  unfold VizRest.make_totals_pie.
  destruct (Forall_dec (fun d => In d (map fst VizRest.DEPT_COLORS))
              (fun d => in_dec string_dec d (map fst VizRest.DEPT_COLORS))
              (map fst totals_df)) as [Hall | Hnot].
  - left. split; [exact Hall|].
    destruct (colors_of_known Hall) as [cs [Hcs [Hlen Hin]]].
    rewrite Hcs. cbn [bind]. eexists. split; [reflexivity|].
    cbn [VizRest.pie_labels VizRest.pie_values VizRest.pie_colors].
    repeat split.
    + apply combine_fst_snd.
    + rewrite Hlen. apply length_map.
    + exact Hin.
  - right. split; [exact Hnot|].
    rewrite (colors_of_unknown Hnot). reflexivity.
Qed.

(** ** ROI chart: failure and coverage *)

(** X14. [make_roi_forecast] returns exactly when the actual series is
    not empty and no month label of either series is blank.  In every other
    case, an empty actual series whatever the forecast holds or a blank
    label anywhere, it raises [IndexError], and never any other
    exception. *)
Theorem make_roi_forecast_errors (roi_df fcst_df : list (string * Q)) :
  ((roi_df <> [] /\
    Forall (fun m => Py.blank m = false)
           (map fst roi_df ++ map fst fcst_df)) /\
   exists fig : Viz.roi_figure,
     Viz.make_roi_forecast roi_df fcst_df = Ok fig) \/
  ((roi_df = [] \/
    ~ Forall (fun m => Py.blank m = false)
             (map fst roi_df ++ map fst fcst_df)) /\
   Viz.make_roi_forecast roi_df fcst_df = Raise IndexError).
Proof.
  destruct (short_labels_cases (map fst roi_df ++ map fst fcst_df))
    as [[Hall [short Hsh]] | [Hnot _]].
  - destruct roi_df as [|r roi_df].
    + right. split; [left; reflexivity|].
      unfold Viz.make_roi_forecast. rewrite Hsh. reflexivity.
    + left. split; [split; [discriminate | exact Hall]|].
      destruct (@exists_last _ (r :: roi_df)) as [init [[p v] E]];
        [discriminate|].
      rewrite E in *.
      destruct (make_roi_forecast_snoc init fcst_df p v Hall)
        as [sh [m [ymax [n [Hfig _]]]]].
      eexists. exact Hfig.
  - right. split; [right; exact Hnot|].
    apply make_roi_forecast_blank. exact Hnot.
Qed.

(** X15. Whenever [make_roi_forecast] returns, the axis runs from 10000 to
    an upper end of at least 40000, and no point of either trace lies above
    that upper end.  The lower end does not follow the data. *)
Theorem roi_axis_covers (roi_df fcst_df : list (string * Q))
    (fig : Viz.roi_figure) :
  Viz.make_roi_forecast roi_df fcst_df = Ok fig ->
  fst (Viz.y_range (Viz.roi_yaxis fig)) = 10000%Z /\
  (40000 <= snd (Viz.y_range (Viz.roi_yaxis fig)))%Z /\
  (forall v, In v (Viz.actual_y fig ++ Viz.fcst_y fig) ->
             v <= inject_Z (snd (Viz.y_range (Viz.roi_yaxis fig)))).
Proof.
  intro H.
  destruct (short_labels_cases (map fst roi_df ++ map fst fcst_df))
    as [[Hall [short Hsh]] | [Hnot _]];
    [|rewrite (make_roi_forecast_blank _ _ Hnot) in H; discriminate H].
  destruct roi_df as [|r roi_df].
  { unfold Viz.make_roi_forecast in H. rewrite Hsh in H. discriminate H. }
  destruct (@exists_last _ (r :: roi_df)) as [init [[p v] E]];
    [discriminate|].
  rewrite E in *.
  destruct (make_roi_forecast_snoc init fcst_df p v Hall)
    as [sh [m [ymax [n [Hfig [Hin [Hub [Hcase Hn]]]]]]]].
  rewrite Hfig in H. injection H as <-.
  cbn [Viz.roi_yaxis Viz.y_range Viz.actual_y Viz.fcst_y fst snd].
  assert (Hm : m <= inject_Z ymax).
  { destruct Hcase as [[Hle ->] | [_ ->]]; [exact Hle|].
    apply (@ceil_step_covers m 5000). reflexivity. }
  split; [reflexivity|]. split.
  { destruct Hcase as [[_ ->] | [Hlt _]]; [lia|].
    apply Z.lt_le_incl. rewrite Zlt_Qlt.
    apply Qlt_le_trans with m; [exact Hlt | exact Hm]. }
  intros x Hx. apply Qle_trans with m; [|exact Hm]. apply Hub.
  apply in_app_or in Hx. apply in_or_app.
  destruct Hx as [Hx | [<- | Hx]].
  - left. exact Hx.
  - left. rewrite map_app. apply in_or_app. right. left. reflexivity.
  - right. exact Hx.
Qed.

Lemma roi_axis_covers_witness :
  exists fig : Viz.roi_figure,
    Viz.make_roi_forecast
      [("Feb 2023", 52000); ("Mar 2023", 12000)]%string
      [("Apr 2023", 21000)]%string = Ok fig /\
    fst (Viz.y_range (Viz.roi_yaxis fig)) = 10000%Z /\
    (40000 <= snd (Viz.y_range (Viz.roi_yaxis fig)))%Z /\
    (forall v, In v (Viz.actual_y fig ++ Viz.fcst_y fig) ->
               v <= inject_Z (snd (Viz.y_range (Viz.roi_yaxis fig)))).
Proof.
  eexists. split; [reflexivity|].
  apply (@roi_axis_covers
           [("Feb 2023", 52000); ("Mar 2023", 12000)]%string
           [("Apr 2023", 21000)]%string).
  reflexivity.
Defined.

(** ** What a run of the generator does to the directory *)

Lemma main_files (seed : Z) (w : DataGen.world) :
  (0 <= seed <= 2 ^ 32 - 1)%Z ->
  exists rs : list (list DataGen.cell),
    DataGen.records DataGen.monthly_data = Ok rs /\
    fst (DataGen.main seed w) = Ok tt /\
    DataGen.files (snd (DataGen.main seed w)) =
    [ ("procurement_forecast.csv",
       DataGen.frame2 "Month" "Forecast"
         DataGen.forecast_months DataGen.forecast_values);
      ("procurement_roi.csv",
       DataGen.frame2 "Month" "Procurement ROI"
         DataGen.roi_months DataGen.roi_values);
      ("monthly_savings_by_department.csv",
       DataGen.Csv ["MonthYear"; "Department"; "Savings"] rs);
      ("savings_by_department.csv",
       DataGen.frame2 "Department" "Savings"
         DataGen.savings_departments DataGen.savings_values);
      ("procurement_kpis.json", DataGen.JsonObject DataGen.kpis) ]%string
    ++ filter
         (fun p =>
            negb (existsb (String.eqb (fst p))
                    [ "procurement_kpis.json"; "savings_by_department.csv";
                      "monthly_savings_by_department.csv";
                      "procurement_roi.csv";
                      "procurement_forecast.csv" ]%string))
         (DataGen.files w).
Proof.
  intro Hs. destruct records_monthly_data as [rs [Hrs _]].
  exists rs. unfold DataGen.main.
  rewrite np_random_seed_accepts by exact Hs. rewrite Hrs.
  split; [reflexivity|]. split; [reflexivity|].
  cbn [snd DataGen.files DataGen.write DataGen.print fst].
  generalize (DataGen.files w). intro l.
  cbn [filter fst String.eqb Ascii.eqb Bool.eqb negb app].
  do 5 f_equal.
  induction l as [|[k v] l IH]; [reflexivity|].
  cbn [filter fst existsb].
  destruct (String.eqb k "procurement_kpis.json"); cbn [negb orb];
    [exact IH|].
  cbn [filter fst].
  destruct (String.eqb k "savings_by_department.csv"); cbn [negb orb];
    [exact IH|].
  cbn [filter fst].
  destruct (String.eqb k "monthly_savings_by_department.csv");
    cbn [negb orb]; [exact IH|].
  cbn [filter fst].
  destruct (String.eqb k "procurement_roi.csv"); cbn [negb orb];
    [exact IH|].
  cbn [filter fst].
  destruct (String.eqb k "procurement_forecast.csv"); cbn [negb orb];
    [exact IH|].
  f_equal. exact IH.
Qed.

(** X16. A run with an accepted seed rewrites its five files and nothing
    else: every other file of the directory keeps its content, and a second
    run leaves the directory exactly as the first one left it (the files are
    replaced, not appended to). *)
Theorem main_rewrites_five_files (seed : Z) (w : DataGen.world) :
  (0 <= seed <= 2 ^ 32 - 1)%Z ->
  (forall name : string,
     ~ In name [ "procurement_kpis.json"; "savings_by_department.csv";
                 "monthly_savings_by_department.csv"; "procurement_roi.csv";
                 "procurement_forecast.csv" ]%string ->
     DataGen.read name (snd (DataGen.main seed w)) = DataGen.read name w) /\
  fst (DataGen.main seed (snd (DataGen.main seed w))) = Ok tt /\
  DataGen.files (snd (DataGen.main seed (snd (DataGen.main seed w)))) =
  DataGen.files (snd (DataGen.main seed w)).
Proof.
  intro Hs. split; [|split].
  - intros name Hn.
    assert (N : forall other : string,
              In other [ "procurement_kpis.json";
                         "savings_by_department.csv";
                         "monthly_savings_by_department.csv";
                         "procurement_roi.csv";
                         "procurement_forecast.csv" ]%string ->
              String.eqb name other = false).
    { intros other Ho. destruct (String.eqb name other) eqn:E;
        [|reflexivity].
      apply String.eqb_eq in E. subst other. contradiction. }
    destruct records_monthly_data as [rs [Hrs _]].
    unfold DataGen.main. rewrite np_random_seed_accepts by exact Hs.
    rewrite Hrs. cbn [snd]. rewrite !read_print.
    rewrite !read_write_other by (apply N; simpl; tauto).
    reflexivity.
  - destruct (main_files (snd (DataGen.main seed w)) Hs)
      as [rs [_ [Hok _]]].
    exact Hok.
  - destruct (main_files w Hs) as [rs1 [R1 [_ H1]]].
    destruct (main_files (snd (DataGen.main seed w)) Hs)
      as [rs2 [R2 [_ H2]]].
    assert (rs2 = rs1) by congruence. subst rs2.
    rewrite H2, H1. clear H1 H2.
    rewrite filter_app, filter_filter_implies by auto.
    reflexivity.
Qed.

Lemma main_rewrites_five_files_witness :
  (forall name : string,
     ~ In name [ "procurement_kpis.json"; "savings_by_department.csv";
                 "monthly_savings_by_department.csv"; "procurement_roi.csv";
                 "procurement_forecast.csv" ]%string ->
     DataGen.read name (snd (DataGen.main 42 DataGen.empty_world)) =
     DataGen.read name DataGen.empty_world) /\
  fst (DataGen.main 42 (snd (DataGen.main 42 DataGen.empty_world))) = Ok tt /\
  DataGen.files
    (snd (DataGen.main 42 (snd (DataGen.main 42 DataGen.empty_world)))) =
  DataGen.files (snd (DataGen.main 42 DataGen.empty_world)).
Proof.
  apply (@main_rewrites_five_files 42 DataGen.empty_world). simpl. lia.
Defined.

(** ** The record loops of the generator *)

Lemma records_of_month_complete (month_year : string)
    (depts : list (string * Q)) (ds : list string) :
  Forall (fun d => In d (map fst depts)) ds ->
  exists rs : list (list DataGen.cell),
    DataGen.records_of_month month_year depts ds = Ok rs /\
    map (firstn 2) rs =
    map (fun d => [DataGen.Str month_year; DataGen.Str d]) ds /\
    Forall (fun row =>
              exists (d : string) (v : Q),
                row = [DataGen.Str month_year; DataGen.Str d; DataGen.Num v]
                /\ DataGen.getitem depts d = Ok v) rs.
Proof.
  induction ds as [|d ds IH]; intro H.
  - exists []. repeat split; constructor.
  - inversion H as [|? ? Hd Hds]; subst.
    destruct (getitem_in _ _ Hd) as [v [Hv _]].
    destruct (IH Hds) as [rs [Hrs [Hlab Hval]]].
    exists ([DataGen.Str month_year; DataGen.Str d; DataGen.Num v] :: rs).
    cbn [DataGen.records_of_month]. rewrite Hv. cbn [bind].
    rewrite Hrs. cbn [bind]. repeat split.
    + rewrite !map_cons, Hlab. reflexivity.
    + constructor; [|exact Hval]. exists d, v. split; [reflexivity|exact Hv].
Qed.

Lemma records_of_month_missing (month_year : string)
    (depts : list (string * Q)) (ds : list string) :
  ~ Forall (fun d => In d (map fst depts)) ds ->
  DataGen.records_of_month month_year depts ds = Raise KeyError.
Proof.
  induction ds as [|d ds IH]; intro H.
  - exfalso. apply H. constructor.
  - cbn [DataGen.records_of_month].
    destruct (in_dec string_dec d (map fst depts)) as [Hd | Hd].
    + destruct (getitem_in _ _ Hd) as [v [Hv _]]. rewrite Hv. cbn [bind].
      rewrite IH; [reflexivity|].
      intro F. apply H. constructor; assumption.
    + rewrite (getitem_not_in _ _ Hd). reflexivity.
Qed.

(** X17. The record loops, for any table of months.  When every month has
    a value for each of the six departments, there is one record per month
    and department, months in the order of the table and departments in
    the order of [dept_order] within each month, and every record carries
    the value its month holds for its department.  When some month lacks a
    department, the loops raise [KeyError]. *)
Theorem records_shape (items : list (string * list (string * Q))) :
  (Forall (fun it =>
             Forall (fun d => In d (map fst (snd it))) DataGen.dept_order)
          items /\
   exists rs : list (list DataGen.cell),
     DataGen.records items = Ok rs /\
     List.length rs = (6 * List.length items)%nat /\
     map (firstn 2) rs =
     flat_map (fun it =>
                 map (fun d => [DataGen.Str (fst it); DataGen.Str d])
                     DataGen.dept_order)
              items /\
     Forall (fun row =>
               exists (it : string * list (string * Q)) (d : string) (v : Q),
                 In it items /\
                 row = [DataGen.Str (fst it); DataGen.Str d; DataGen.Num v]
                 /\ DataGen.getitem (snd it) d = Ok v) rs) \/
  (~ Forall (fun it =>
               Forall (fun d => In d (map fst (snd it))) DataGen.dept_order)
            items /\
   DataGen.records items = Raise KeyError).
Proof.
  induction items as [|[m depts] items IH].
  - left. split; [constructor|]. exists [].
    repeat split; constructor.
  - cbn [DataGen.records].
    destruct (Forall_dec (fun d => In d (map fst depts))
                (fun d => in_dec string_dec d (map fst depts))
                DataGen.dept_order) as [Hm | Hm].
    + destruct (@records_of_month_complete m depts _ Hm) as [rs [Hrs [Hlab Hval]]].
      rewrite Hrs. cbn [bind].
      destruct IH as [[Hall [rest [Hrest [Hlen [Hlabs Hvals]]]]]
                     | [Hnot Herr]].
      * left. split; [constructor; assumption|].
        exists (rs ++ rest). rewrite Hrest. cbn [bind].
        split; [reflexivity|]. split; [|split].
        -- rewrite length_app, Hlen.
           assert (L : List.length rs = 6%nat).
           { rewrite <- (length_map (firstn 2)), Hlab, length_map.
             reflexivity. }
           rewrite L. cbn [List.length]. lia.
        -- rewrite map_app, Hlab, Hlabs. reflexivity.
        -- apply Forall_app. split.
           ++ eapply Forall_impl; [|exact Hval].
              intros row [d [v [E G]]]. exists (m, depts), d, v.
              split; [left; reflexivity | split; assumption].
           ++ eapply Forall_impl; [|exact Hvals].
              intros row [it [d [v [I [E G]]]]]. exists it, d, v.
              split; [right; exact I | split; assumption].
      * right. split.
        -- intro F. inversion F; subst. contradiction.
        -- rewrite Herr. reflexivity.
    + right. split.
      * intro F. inversion F; subst. contradiction.
      * rewrite (@records_of_month_missing m depts _ Hm). reflexivity.
Qed.

(** ** Directories *)

Lemma parents_1_of_file (dir : Paths.path) (name : string) :
  Paths.parents (dir ++ [name]) 1 =
  match dir with
  | [] => Raise IndexError
  | _ :: _ => Ok (Paths.parent dir)
  end.
Proof.
  destruct dir as [|a dir]; [reflexivity|].
  assert (E : Paths.parent ((a :: dir) ++ [name]) = a :: dir)
    by apply removelast_last.
  change (Paths.parents ((a :: dir) ++ [name]) 1)
    with (Paths.parents (Paths.parent ((a :: dir) ++ [name])) 0).
  rewrite E. reflexivity.
Qed.

(** X18. With both scripts in one directory: [load_data()] without an
    argument reads the directory the generator writes, but [viz.py] run as
    a script passes the parent of the scripts' directory and so loads from a
    different [data] directory, never from the one the generator wrote.
    When the scripts sit directly under the root, it raises [IndexError]
    instead. *)
Theorem data_directories (dir : Paths.path) :
  Paths.load_data_dir None (dir ++ ["viz.py"%string]) =
  Paths.data_gen_out_dir (dir ++ ["data_gen.py"%string]) /\
  Paths.viz_main_data_dir (dir ++ ["viz.py"%string]) <>
  Ok (Paths.data_gen_out_dir (dir ++ ["data_gen.py"%string])) /\
  ((dir = [] /\
    Paths.viz_main_data_dir (dir ++ ["viz.py"%string]) = Raise IndexError) \/
   (dir <> [] /\
    Paths.viz_main_data_dir (dir ++ ["viz.py"%string]) =
    Ok (Paths.parent dir ++ ["data"%string]))).
Proof.
  unfold Paths.load_data_dir, Paths.data_gen_out_dir, Paths.viz_main_data_dir,
    Paths.joinpath.
  rewrite parents_1_of_file. unfold Paths.parent.
  rewrite !removelast_last.
  split; [reflexivity|].
  destruct dir as [|a dir].
  - split; [discriminate|]. left. split; reflexivity.
  - split.
    + destruct (@exists_last _ (a :: dir)) as [init [l E]];
        [discriminate|].
      cbn [bind]. rewrite E, removelast_last. intro H. injection H as H.
      unfold Paths.load_data_dir, Paths.joinpath in H.
      apply (f_equal (@List.length string)) in H.
      rewrite !length_app in H. cbn [List.length] in H. lia.
    + right. split; [discriminate | reflexivity].
Qed.
